(** * OrderItem hooks of the Keystone e-commerce schema

    A shallow embedding of the two lifecycle hooks that [src/schema.ts]
    attaches to the [OrderItem] list:

    - [resolveInput], which fills the product snapshot fields and computes
      [lineTotalCents] before an OrderItem is written, and
    - [afterOperation], which recomputes the owning Order's [totalCents]
      after an OrderItem has been created, updated or deleted.

    JavaScript values are modelled by [JsValue]; the loosely typed
    [resolvedData] bag is a finite map from field names to values.  The
    numbers that reach the hooks are the integers of Keystone [integer]
    fields, so a JavaScript number is the [Z] it holds.  The product that
    [resolveInput] takes is the double-precision product [js_mul], which
    rounds once the exact product exceeds 2^53; the sum that
    [afterOperation] takes runs over stored 32-bit line totals and is the
    integer sum.  The hooks run in a small state-and-exception monad over a
    [World] that holds the entity store, its clock and the console. *)

From stdpp Require Import base gmap strings list fin_maps.
From Stdlib Require Import ZArith Lia.

Local Open Scope string_scope.
Local Open Scope Z_scope.

(** ** JavaScript values *)

Module Js.

#[warnings="-register-all"] Inductive JsValue : Type :=
| JsUndefined
| JsNull
| JsBool (b : bool)
| JsNumber (n : Z)
| JsString (s : string)
| JsObject (props : gmap string JsValue).

(** [o.k]: a missing property reads as [undefined]. *)
Definition prop (o : gmap string JsValue) (k : string) : JsValue :=
  default JsUndefined (o !! k).

(** [v?.k]: optional chaining short-circuits on [undefined] and [null];
    the primitives that occur here carry none of the properties read. *)
Definition opt_prop (v : JsValue) (k : string) : JsValue :=
  match v with
  | JsObject o => prop o k
  | _ => JsUndefined
  end.

(** ToBoolean. *)
Definition truthy (v : JsValue) : bool :=
  match v with
  | JsUndefined | JsNull => false
  | JsBool b => b
  | JsNumber n => negb (n =? 0)
  | JsString s => negb (String.eqb s "")
  | JsObject _ => true
  end.

(** [typeof v === 'number'] *)
Definition is_number (v : JsValue) : bool :=
  match v with JsNumber _ => true | _ => false end.

(** [v === undefined] *)
Definition is_undefined (v : JsValue) : bool :=
  match v with JsUndefined => true | _ => false end.

(** [v === null] *)
Definition is_null (v : JsValue) : bool :=
  match v with JsNull => true | _ => false end.

(** [v === ''] *)
Definition is_empty_string (v : JsValue) : bool :=
  match v with JsString s => String.eqb s "" | _ => false end.

(** The double nearest to the integer [x], ties to even: integers up to
    2^53 in magnitude are doubles themselves, a larger one keeps its 53
    leading bits.  (Magnitudes from 2^1024 on, which overflow a double, are
    out of reach of products of 32-bit integers.) *)
Definition round_to_double (x : Z) : Z :=
  let m := Z.abs x in
  if m <=? 2 ^ 53 then x
  else
    let e := Z.log2 m - 52 in
    let q := m / 2 ^ e in
    let r := m mod 2 ^ e in
    let half := 2 ^ (e - 1) in
    let q' := if r <? half then q
              else if half <? r then q + 1
              else if Z.even q then q else q + 1 in
    Z.sgn x * (q' * 2 ^ e).

(** [a * b] on two numbers that hold integers. *)
Definition js_mul (a b : Z) : Z := round_to_double (a * b).

End Js.
Export Js.

(** ** Entities

    The rows that the hooks read, with the columns they read.  Relationship
    columns ([orderId], [productId]) and integer columns are nullable in the
    item type the hooks receive, which is why the source guards every read
    with [?.], [??] or [||]. *)

Record Product : Type := {
  name : string;
  priceCents : Z;
}.

Inductive OrderStatus : Type := pending | paid | cancelled.

Record Order : Type := {
  userId : option string;
  status : OrderStatus;
  currencyCode : string;
  totalCents : Z;
  (** timestamps, in milliseconds *)
  createdAt : Z;
  updatedAt : Z;
}.

Record OrderItem : Type := {
  id : string;
  orderId : option string;
  productId : option string;
  productNameSnapshot : string;
  unitPriceCents : option Z;
  quantity : option Z;
  lineTotalCents : option Z;
}.

Inductive Operation : Type := create | update | delete.

Definition is_update (operation : Operation) : bool :=
  match operation with update => true | _ => false end.

(** ** The world the hooks run in *)

Inductive Level : Type := Log | Warn | Error.

Inductive Exception : Type :=
| StoreUnavailable
| NotFound
| BadInput
| ValidationError (messages : list string).

Record World : Type := {
  Product_table : gmap string Product;
  OrderItem_table : list OrderItem;
  Order_table : gmap string Order;
  (** what the store does on its next calls: [true] makes the call raise *)
  faults : list bool;
  (** the time on the store's clock while the hook runs *)
  now : Z;
  console : list (Level * string);
}.

Definition set_Order_table (t : gmap string Order) (w : World) : World :=
  {| Product_table := Product_table w; OrderItem_table := OrderItem_table w;
     Order_table := t; faults := faults w; now := now w; console := console w |}.

Definition set_OrderItem_table (t : list OrderItem) (w : World) : World :=
  {| Product_table := Product_table w; OrderItem_table := t;
     Order_table := Order_table w; faults := faults w; now := now w;
     console := console w |}.

Definition set_faults (f : list bool) (w : World) : World :=
  {| Product_table := Product_table w; OrderItem_table := OrderItem_table w;
     Order_table := Order_table w; faults := f; now := now w;
     console := console w |}.

Definition set_console (c : list (Level * string)) (w : World) : World :=
  {| Product_table := Product_table w; OrderItem_table := OrderItem_table w;
     Order_table := Order_table w; faults := faults w; now := now w;
     console := c |}.

Definition set_now (t : Z) (w : World) : World :=
  {| Product_table := Product_table w; OrderItem_table := OrderItem_table w;
     Order_table := Order_table w; faults := faults w; now := t;
     console := console w |}.

(** ** A state-and-exception monad for [async] hook bodies

    [await] is sequencing; a rejected promise is [Throw]. *)

Inductive Outcome (A : Type) : Type :=
| Ok (a : A)
| Throw (e : Exception).
Arguments Ok {A} a.
Arguments Throw {A} e.

Definition M (A : Type) : Type := World -> Outcome A * World.

#[global] Instance M_ret : MRet M := fun A (a : A) w => (Ok a, w).

#[global] Instance M_bind : MBind M := fun A B (k : A -> M B) (m : M A) w =>
  match m w with
  | (Ok a, w') => k a w'
  | (Throw e, w') => (Throw e, w')
  end.

Definition throw {A} (e : Exception) : M A := fun w => (Throw e, w).

(** [try { body } catch (e) { handler }] *)
Definition try_catch {A} (body : M A) (handler : Exception -> M A) : M A :=
  fun w => match body w with
           | (Ok a, w') => (Ok a, w')
           | (Throw e, w') => handler e w'
           end.

Definition gets {A} (f : World -> A) : M A := fun w => (Ok (f w), w).

Definition modify (f : World -> World) : M unit := fun w => (Ok tt, f w).

(** [console.log], [console.warn], [console.error]: the message is kept,
    the payload printed after it is not. *)
Definition console_write (lvl : Level) (msg : string) : M unit :=
  modify (fun w => set_console (console w ++ [(lvl, msg)]) w).

Definition console_log := console_write Log.
Definition console_warn := console_write Warn.
Definition console_error := console_write Error.

(** ** Field configuration

    The [validation] and [defaultValue] options that the schema passes to
    the [integer] and [text] field constructors. *)

Record IntegerField : Type := {
  int_label : string;
  int_isRequired : bool;
  int_min : option Z;
  int_defaultValue : option Z;
}.

Record TextField : Type := {
  text_label : string;
  text_isRequired : bool;
}.

Module OrderFields.
Definition totalCents : IntegerField :=
  {| int_label := "Total (cents)"; int_isRequired := true;
     int_min := Some 0; int_defaultValue := None |}.
End OrderFields.

Module OrderItemFields.
Definition productNameSnapshot : TextField :=
  {| text_label := "Product Name (at time of purchase)";
     text_isRequired := true |}.
Definition unitPriceCents : IntegerField :=
  {| int_label := "Unit Price (cents)"; int_isRequired := true;
     int_min := Some 0; int_defaultValue := None |}.
Definition quantity : IntegerField :=
  {| int_label := "Quantity"; int_isRequired := true;
     int_min := Some 1; int_defaultValue := Some 1 |}.
Definition lineTotalCents : IntegerField :=
  {| int_label := "Line Total (cents)"; int_isRequired := true;
     int_min := Some 0; int_defaultValue := None |}.
End OrderItemFields.

Definition is_create (operation : Operation) : bool :=
  match operation with create => true | _ => false end.

(** Modelled from the spec: the validation that the framework derives from
    an integer field's options, which raises [ValidationError] for a
    missing required field, a value below the declared minimum ("negative
    price, zero/negative quantity") and a value that is no integer at all.
    A field left out of an update is not validated. *)
Definition validate_integer (f : IntegerField) (operation : Operation)
    (v : JsValue) : list string :=
  match v with
  | JsUndefined =>
      if int_isRequired f && is_create operation
      then [int_label f ++ " is required"] else []
  | JsNull =>
      if int_isRequired f then [int_label f ++ " is required"] else []
  | JsNumber n =>
      match int_min f with
      | Some m => if n <? m then [int_label f ++ " is below its minimum"] else []
      | None => []
      end
  | _ => [int_label f ++ " must be an integer"]
  end.

(** Modelled from the spec: the validation that the framework derives from
    a text field's options; a required text is missing when it is null,
    empty, or left out of a create. *)
Definition validate_text (f : TextField) (operation : Operation)
    (v : JsValue) : list string :=
  match v with
  | JsUndefined =>
      if text_isRequired f && is_create operation
      then [text_label f ++ " is required"] else []
  | JsNull =>
      if text_isRequired f then [text_label f ++ " is required"] else []
  | JsString t =>
      if text_isRequired f && String.eqb t ""
      then [text_label f ++ " must not be empty"] else []
  | _ => [text_label f ++ " must be a string"]
  end.

(** ** The data-access layer ([context.db]) *)

(** Modelled from the spec: a store call can fail with a transient
    [StoreUnavailable]; every call of the data-access layer first consults
    the fault schedule of the world. *)
Definition store_call : M unit := fun w =>
  match faults w with
  | [] => (Ok tt, w)
  | false :: rest => (Ok tt, set_faults rest w)
  | true :: rest => (Throw StoreUnavailable, set_faults rest w)
  end.

(** Modelled from the spec: the Product lookup of the data-access layer,
    [findProduct(id) -> {name, priceCents} | not-found | error].  An absent
    Product is the [null] result; an error is a raised exception; an id that
    is not a string is refused as malformed input. *)
Definition Product_findOne (id : JsValue) : M (option Product) :=
  store_call ;;
  match id with
  | JsString pid => gets (fun w => Product_table w !! pid)
  | _ => throw BadInput
  end.

(** Modelled from the spec: the OrderItem listing of the data-access layer,
    [listOrderItems(orderId) -> sequence], all items whose order is
    [orderId], in store order. *)
Definition OrderItem_findMany (oid : string) : M (list OrderItem) :=
  store_call ;;
  gets (fun w => filter (fun oi => orderId oi = Some oid) (OrderItem_table w)).

(** The Order row after an update with [data: { totalCents: total }] at
    time [t]: the schema declares [updatedAt] with [db: { updatedAt: true }],
    so every update rewrites it; the other columns stay. *)
Definition Order_set_totalCents (total t : Z) (o : Order) : Order :=
  {| userId := userId o; status := status o; currencyCode := currencyCode o;
     totalCents := total; createdAt := createdAt o; updatedAt := t |}.

(** Modelled from the spec: the Order update of the data-access layer,
    [updateOrder(orderId, {totalCents}) -> success | error].  A missing
    Order is an error, and so is a total below the minimum that the schema
    declares for [Order.totalCents] ([validation: { min: 0 }]). *)
Definition Order_updateOne (oid : string) (total : Z) : M unit :=
  store_call ;;
  orders ← gets Order_table;
  t ← gets now;
  match orders !! oid with
  | None => throw NotFound
  | Some o =>
      match validate_integer OrderFields.totalCents update (JsNumber total) with
      | [] => modify (set_Order_table
                        (<[oid := Order_set_totalCents total t o]> orders))
      | messages => throw (ValidationError messages)
      end
  end.

(** ** [OrderItem.hooks.resolveInput] *)

Section resolveInput.

Variable operation : Operation.
Variable item : option OrderItem.

(** [resolveQuantity]: [typeof data.quantity === 'number' ? data.quantity
    : item?.quantity ?? 1]. *)
Definition resolveQuantity (data : gmap string JsValue) : Z :=
  match prop data "quantity" with
  | JsNumber q => q
  | _ => default 1 (item ≫= quantity)
  end.

(** [item?.productId] as the value the source tests and returns. *)
Definition item_productId : JsValue :=
  match item ≫= productId with
  | Some pid => JsString pid
  | None => JsNull
  end.

(** [resolveProductId]: the product connected by this write, else (on
    update, when the write carries no [product]) the stored reference. *)
Definition resolveProductId (data : gmap string JsValue) : JsValue :=
  let connected := opt_prop (opt_prop (prop data "product") "connect") "id" in
  if truthy connected then connected
  else if is_update operation && negb (truthy (prop data "product"))
          && truthy item_productId
  then item_productId
  else JsUndefined.

Definition needName (data : gmap string JsValue) : bool :=
  is_undefined (prop data "productNameSnapshot")
  || is_null (prop data "productNameSnapshot")
  || is_empty_string (prop data "productNameSnapshot").

Definition needPrice (data : gmap string JsValue) : bool :=
  is_undefined (prop data "unitPriceCents").

(** The body of the [if (product)] block: the two guarded assignments. *)
Definition populate (product : Product) (data : gmap string JsValue)
  : gmap string JsValue :=
  let data1 :=
    if needName data
    then <["productNameSnapshot" := JsString (name product)]> data else data in
  if needPrice data
  then <["unitPriceCents" := JsNumber (priceCents product)]> data1 else data1.

(** The body of the [try] block.  Only the lookup can raise, and it runs
    before any assignment to [data]. *)
Definition snapshotLookup (productId : JsValue) (data : gmap string JsValue)
  : M (gmap string JsValue) :=
  product ← Product_findOne productId;
  match product with
  | Some p =>
      console_log "Fetched product for snapshot:" ;;
      mret (populate p data)
  | None => mret data
  end.

(** [if (productId && (needName || needPrice)) { try ... catch ... }] *)
Definition populateSnapshots (data : gmap string JsValue)
  : M (gmap string JsValue) :=
  let productId := resolveProductId data in
  if truthy productId && (needName data || needPrice data)
  then
    try_catch
      (snapshotLookup productId data)
      (fun e => console_warn "Failed to fetch product for snapshot" ;; mret data)
  else mret data.

(** What the guarded lookup hands to the [if (product)] block in world
    [w]: the Product found, or nothing when the guard is off, the lookup
    raises, or it finds no Product.  Used to state what the resolver
    returns. *)
Definition fetchedProduct (data : gmap string JsValue) (w : World)
  : option Product :=
  let productId := resolveProductId data in
  if truthy productId && (needName data || needPrice data)
  then match Product_findOne productId w with
       | (Ok product, _) => product
       | (Throw _, _) => None
       end
  else None.

(** [typeof data.unitPriceCents === 'number' ? data.unitPriceCents
    : (item?.unitPriceCents ?? 0)] *)
Definition resolveUnitPrice (data : gmap string JsValue) : Z :=
  match prop data "unitPriceCents" with
  | JsNumber p => p
  | _ => default 0 (item ≫= unitPriceCents)
  end.

Definition resolveInput (resolvedData : gmap string JsValue)
  : M (gmap string JsValue) :=
  console_log "OrderItem resolveInput:" ;;
  console_log "Need name:" ;;
  data ← populateSnapshots resolvedData;
  mret (<["lineTotalCents" :=
            JsNumber (js_mul (resolveQuantity data) (resolveUnitPrice data))]>
          data).

End resolveInput.

(** ** [OrderItem.hooks.afterOperation] *)

(** [oi.lineTotalCents || 0] *)
Definition lineTotal_or_zero (oi : OrderItem) : Z :=
  match lineTotalCents oi with
  | Some n => if n =? 0 then 0 else n
  | None => 0
  end.

(** [item || originalItem]: an item object is always truthy. *)
Definition effectiveItem (item originalItem : option OrderItem)
  : option OrderItem :=
  match item with
  | Some i => Some i
  | None => originalItem
  end.

(** [effectiveItem?.orderId] when it is truthy. *)
Definition effectiveOrderId (item originalItem : option OrderItem)
  : option string :=
  match effectiveItem item originalItem ≫= orderId with
  | Some oid => if String.eqb oid "" then None else Some oid
  | None => None
  end.

(** [orderItems.reduce((sum, oi) => sum + (oi.lineTotalCents || 0), 0)] *)
Definition reduce_total (orderItems : list OrderItem) : Z :=
  fold_left (fun sum oi => sum + lineTotal_or_zero oi) orderItems 0.

(** The body of the [try] block. *)
Definition recalculate (oid : string) : M unit :=
  orderItems ← OrderItem_findMany oid;
  Order_updateOne oid (reduce_total orderItems).

Definition afterOperation (operation : Operation)
    (item originalItem : option OrderItem) : M unit :=
  match effectiveOrderId item originalItem with
  | None => mret tt
  | Some oid =>
      try_catch
        (recalculate oid)
        (fun e => console_error "Failed to recalc order total")
  end.

(** ** The OrderItem write pipeline

    The framework code that calls the two hooks is not part of the schema
    file; it is modelled after the control flow the specification gives:
    the resolver runs pre-write, a [ValidationError] aborts the write, the
    write is committed, and the recalculator runs post-commit. *)

(** Modelled from the spec: the list-level validation of an OrderItem
    write, the field validations of the four validated fields. *)
Definition validateInput (operation : Operation) (data : gmap string JsValue)
  : list string :=
  validate_text OrderItemFields.productNameSnapshot operation
    (prop data "productNameSnapshot")
  ++ validate_integer OrderItemFields.unitPriceCents operation
       (prop data "unitPriceCents")
  ++ validate_integer OrderItemFields.quantity operation (prop data "quantity")
  ++ validate_integer OrderItemFields.lineTotalCents operation
       (prop data "lineTotalCents").

(** Modelled from the spec: a create applies the declared [defaultValue]
    of a field that the client left out; only [quantity] declares one. *)
Definition applyDefaults (input : gmap string JsValue) : gmap string JsValue :=
  match prop input "quantity", int_defaultValue OrderItemFields.quantity with
  | JsUndefined, Some d => <["quantity" := JsNumber d]> input
  | _, _ => input
  end.

Definition number_of (v : JsValue) : option Z :=
  match v with JsNumber n => Some n | _ => None end.

Definition string_of (v : JsValue) : string :=
  match v with JsString t => t | _ => "" end.

(** The id named by a relationship input [{ connect: { id } }]. *)
Definition connected_id (v : JsValue) : option string :=
  match opt_prop (opt_prop v "connect") "id" with
  | JsString i => Some i
  | _ => None
  end.

(** Modelled from the spec: the row a committed create stores. *)
Definition created_item (newId : string) (data : gmap string JsValue)
  : OrderItem :=
  {| id := newId;
     orderId := connected_id (prop data "order");
     productId := connected_id (prop data "product");
     productNameSnapshot := string_of (prop data "productNameSnapshot");
     unitPriceCents := number_of (prop data "unitPriceCents");
     quantity := number_of (prop data "quantity");
     lineTotalCents := number_of (prop data "lineTotalCents") |}.

Definition merge {A} (read : JsValue -> A) (v : JsValue) (stored : A) : A :=
  match v with JsUndefined => stored | _ => read v end.

(** Modelled from the spec: the row a committed update stores; a field
    that the write leaves out keeps its stored value. *)
Definition updated_item (stored : OrderItem) (data : gmap string JsValue)
  : OrderItem :=
  {| id := id stored;
     orderId := merge connected_id (prop data "order") (orderId stored);
     productId := merge connected_id (prop data "product") (productId stored);
     productNameSnapshot :=
       merge string_of (prop data "productNameSnapshot") (productNameSnapshot stored);
     unitPriceCents :=
       merge number_of (prop data "unitPriceCents") (unitPriceCents stored);
     quantity := merge number_of (prop data "quantity") (quantity stored);
     lineTotalCents :=
       merge number_of (prop data "lineTotalCents") (lineTotalCents stored) |}.

Definition has_id (i : string) (oi : OrderItem) : bool := String.eqb (id oi) i.

Definition OrderItem_find (i : string) : M OrderItem :=
  items ← gets OrderItem_table;
  match List.find (has_id i) items with
  | Some oi => mret oi
  | None => throw NotFound
  end.

Definition commit (f : list OrderItem -> list OrderItem) : M unit :=
  store_call ;;
  modify (fun w => set_OrderItem_table (f (OrderItem_table w)) w).

(** Modelled from the spec: create = defaults, resolver, validation,
    commit, recalculator. *)
Definition createOrderItem (newId : string) (input : gmap string JsValue)
  : M OrderItem :=
  data ← resolveInput create None (applyDefaults input);
  match validateInput create data with
  | [] =>
      let item := created_item newId data in
      commit (fun items => (items ++ [item])%list) ;;
      afterOperation create (Some item) None ;;
      mret item
  | messages => throw (ValidationError messages)
  end.

(** Modelled from the spec: update = resolver, validation, commit,
    recalculator. *)
Definition updateOrderItem (i : string) (input : gmap string JsValue)
  : M OrderItem :=
  originalItem ← OrderItem_find i;
  data ← resolveInput update (Some originalItem) input;
  match validateInput update data with
  | [] =>
      let item := updated_item originalItem data in
      commit (map (fun oi => if has_id i oi then item else oi)) ;;
      afterOperation update (Some item) (Some originalItem) ;;
      mret item
  | messages => throw (ValidationError messages)
  end.

(** Modelled from the spec: delete = commit, recalculator on the
    pre-delete item. *)
Definition deleteOrderItem (i : string) : M OrderItem :=
  originalItem ← OrderItem_find i;
  commit (List.filter (fun oi => negb (has_id i oi))) ;;
  afterOperation delete None (Some originalItem) ;;
  mret originalItem.

(** ** Reference definitions and example data *)

(** The specification's wording of the effective quantity: "the proposed
    quantity if present in this write, else the previous stored quantity,
    else a default of 1". *)
Definition effectiveQuantity_spec (proposed previous : option Z) : Z :=
  match proposed, previous with
  | Some q, _ => q
  | None, Some q => q
  | None, None => 1
  end.

(** The specification's wording of the Order total: the sum of
    [lineTotalCents] over the items of the Order, "treating a missing/null
    value as zero". *)
Definition order_items (oid : string) (items : list OrderItem) : list OrderItem :=
  filter (fun oi => orderId oi = Some oid) items.

Definition sum_lineTotals_spec (items : list OrderItem) : Z :=
  foldr (fun oi acc => default 0 (lineTotalCents oi) + acc) 0 items.

(** The store answers its next [n] calls. *)
Definition store_up (n : nat) (w : World) : Prop :=
  Forall (fun b => b = false) (take n (faults w)).

(** Every stored line total is within the minimum the schema declares
    for [lineTotalCents] ([validation: { min: 0 }]). *)
Definition lineTotals_valid (w : World) : Prop :=
  Forall (fun oi => 0 <= default 0 (lineTotalCents oi)) (OrderItem_table w).

(** Every stored item carries a quantity of at least 1. *)
Definition quantities_valid (w : World) : Prop :=
  Forall (fun oi => exists q, quantity oi = Some q /\ 1 <= q) (OrderItem_table w).

(** The hooks never touch the Product and OrderItem tables; [same_store]
    also covers the Order table. *)
Definition same_store (w w' : World) : Prop :=
  Product_table w' = Product_table w
  /\ OrderItem_table w' = OrderItem_table w
  /\ Order_table w' = Order_table w.

Module Examples.

(** The relationship input [{ connect: { id: i } }]. *)
Definition connect (i : string) : JsValue :=
  JsObject {[ "connect" := JsObject {[ "id" := JsString i ]} ]}.

Definition widget : Product := {| name := "Widget"; priceCents := 1999 |}.

(** An Order of user u1, created and last updated at time 1000. *)
Definition order_row (s : OrderStatus) (currency : string) (total : Z) : Order :=
  {| userId := Some "u1"; status := s; currencyCode := currency;
     totalCents := total; createdAt := 1000; updatedAt := 1000 |}.

Definition empty_order : Order := order_row pending "USD" 0.

(** One Product, one Order, no items, a store that answers. *)
Definition shop : World :=
  {| Product_table := {[ "p1" := widget ]};
     OrderItem_table := [];
     Order_table := {[ "o1" := empty_order ]};
     faults := [];
     now := 5000;
     console := [] |}.

(** An item bought when the Widget cost 1999. *)
Definition widget_line : OrderItem :=
  {| id := "i1"; orderId := Some "o1"; productId := Some "p1";
     productNameSnapshot := "Widget"; unitPriceCents := Some 1999;
     quantity := Some 1; lineTotalCents := Some 1999 |}.

(** The same shop later: the item is stored, and the Product has been
    renamed and repriced since. *)
Definition shop_repriced : World :=
  {| Product_table := {[ "p1" := {| name := "Widget Pro"; priceCents := 2500 |} ]};
     OrderItem_table := [widget_line];
     Order_table :=
       {[ "o1" := order_row pending "USD" 1999 ]};
     faults := [];
     now := 5000;
     console := [] |}.

Definition item_A : OrderItem :=
  {| id := "A"; orderId := Some "o1"; productId := None;
     productNameSnapshot := "Gadget"; unitPriceCents := Some 500;
     quantity := Some 3; lineTotalCents := Some 1500 |}.

Definition item_B : OrderItem :=
  {| id := "B"; orderId := Some "o1"; productId := Some "p1";
     productNameSnapshot := "Widget"; unitPriceCents := Some 1499;
     quantity := Some 2; lineTotalCents := Some 2998 |}.

Definition shop_with (items : list OrderItem) (total : Z) (schedule : list bool)
  : World :=
  {| Product_table := {[ "p1" := widget ]};
     OrderItem_table := items;
     Order_table :=
       {[ "o1" := order_row pending "USD" total ]};
     faults := schedule;
     now := 5000;
     console := [] |}.

End Examples.

(** Every stored item carries a quantity, a unit price and their double
    product as line total. *)
Definition lineTotals_consistent (w : World) : Prop :=
  Forall (fun oi => exists q p,
            quantity oi = Some q /\ unitPriceCents oi = Some p
            /\ lineTotalCents oi = Some (js_mul q p))
         (OrderItem_table w).

Module Scenarios.

Definition gizmo : Product := {| name := "Gizmo"; priceCents := 750 |}.

(** Two Products, the stored Widget line and its Order. *)
Definition catalogue : World :=
  {| Product_table := {[ "p1" := Examples.widget; "p2" := gizmo ]};
     OrderItem_table := [Examples.widget_line];
     Order_table :=
       {[ "o1" := (Examples.order_row paid "EUR" 1999) ]};
     faults := [];
     now := 5000;
     console := [] |}.

(** An Order without items next to the Order of items A and B. *)
Definition two_orders (schedule : list bool) : World :=
  {| Product_table := {[ "p1" := Examples.widget ]};
     OrderItem_table := [Examples.item_A; Examples.item_B];
     Order_table :=
       {[ "o1" := (Examples.order_row pending "USD" 0);
          "o2" := (Examples.order_row paid "EUR" 77) ]};
     faults := schedule;
     now := 5000;
     console := [] |}.

End Scenarios.

(** * Properties *)

(** ** Running the monad *)

Ltac unfold_M :=
  unfold mbind, M_bind, mret, M_ret, gets, modify, throw, try_catch in *.

(** ** The double product *)

(** Up to 2^53 in magnitude the product is exact. *)
Lemma round_to_double_exact x : Z.abs x <= 2 ^ 53 -> round_to_double x = x.
Proof.
  intros H. unfold round_to_double.
  destruct (Z.leb_spec (Z.abs x) (2 ^ 53)); [reflexivity | lia].
Qed.

(** Beyond 2^53 the rounded value stays at 2^53 or above in magnitude. *)
Lemma round_to_double_large x :
  2 ^ 53 < Z.abs x -> 2 ^ 53 <= Z.abs (round_to_double x).
Proof.
  intros H. unfold round_to_double.
  destruct (Z.leb_spec (Z.abs x) (2 ^ 53)); [lia|]. cbv zeta.
  set (m := Z.abs x) in *.
  assert (53 <= Z.log2 m) as Hlog by (apply Z.log2_le_pow2; lia).
  set (e := Z.log2 m - 52).
  assert (1 <= e) as He by lia.
  assert (0 < 2 ^ e) as Hpos by (apply Z.pow_pos_nonneg; lia).
  assert (2 ^ 52 <= m / 2 ^ e) as Hq.
  { apply Z.div_le_lower_bound; [exact Hpos|].
    rewrite Z.mul_comm, <- Z.pow_add_r by lia.
    replace (52 + e) with (Z.log2 m) by lia.
    apply Z.log2_spec. lia. }
  set (q := m / 2 ^ e) in *.
  set (q' := if m mod 2 ^ e <? 2 ^ (e - 1) then q
             else if 2 ^ (e - 1) <? m mod 2 ^ e then q + 1
             else if Z.even q then q else q + 1).
  assert (q <= q') as Hq'.
  { subst q'. repeat match goal with |- context [if ?b then _ else _] =>
                       destruct b end; lia. }
  assert (2 <= 2 ^ e) as Htwo.
  { change 2 with (2 ^ 1) at 1. apply Z.pow_le_mono_r; lia. }
  rewrite Z.abs_mul.
  assert (Z.abs (Z.sgn x) = 1) as ->.
  { subst m. destruct (Z.abs_spec x) as [[? ?]|[? ?]];
      [rewrite Z.sgn_pos | rewrite Z.sgn_neg]; lia. }
  rewrite Z.mul_1_l, Z.abs_eq by nia. nia.
Qed.

(** A rounded value that fits 53 bits is the exact value. *)
Lemma round_to_double_small x :
  Z.abs (round_to_double x) < 2 ^ 53 -> round_to_double x = x.
Proof.
  intros H. apply round_to_double_exact.
  destruct (Z.le_gt_cases (Z.abs x) (2 ^ 53)) as [|Hlarge]; [done|].
  apply round_to_double_large in Hlarge. lia.
Qed.

Lemma round_to_double_nonneg x : 0 <= x -> 0 <= round_to_double x.
Proof.
  intros H. unfold round_to_double.
  destruct (Z.leb_spec (Z.abs x) (2 ^ 53)); [done|]. cbv zeta.
  assert (0 < x) as Hx by lia. rewrite Z.sgn_pos, Z.mul_1_l by done.
  set (e := Z.log2 (Z.abs x) - 52).
  assert (0 <= 2 ^ e) as Hpos by (apply Z.pow_nonneg; lia).
  assert (0 <= Z.abs x / 2 ^ e) as Hq by (apply Z_div_nonneg_nonneg; lia).
  apply Z.mul_nonneg_nonneg; [|done].
  repeat match goal with |- context [if ?b then _ else _] => destruct b end; lia.
Qed.

(** Spacing 2 above 2^53 and 4 above 2^54, ties to the even neighbour. *)
Example round_to_double_ties :
  round_to_double (2 ^ 53 + 1) = 2 ^ 53
  /\ round_to_double (2 ^ 53 + 2) = 2 ^ 53 + 2
  /\ round_to_double (2 ^ 53 + 3) = 2 ^ 53 + 4
  /\ round_to_double (2 ^ 54 + 2) = 2 ^ 54
  /\ round_to_double (2 ^ 54 + 3) = 2 ^ 54 + 4
  /\ round_to_double (- (2 ^ 53 + 3)) = - (2 ^ 53 + 4)
  /\ js_mul 2147483647 2147483647 = 4611686014132420608.
Proof. vm_compute. by repeat split. Qed.

Lemma js_mul_exact a b : Z.abs (a * b) <= 2 ^ 53 -> js_mul a b = a * b.
Proof. apply round_to_double_exact. Qed.

Lemma js_mul_0_r a : js_mul a 0 = 0.
Proof. unfold js_mul. by rewrite Z.mul_0_r. Qed.

Lemma js_mul_nonneg a b : 0 <= a -> 0 <= b -> 0 <= js_mul a b.
Proof. intros. apply round_to_double_nonneg. lia. Qed.

(** ** Running the hooks *)

Lemma same_store_refl w : same_store w w.
Proof. by repeat split. Qed.

Lemma same_store_trans w1 w2 w3 :
  same_store w1 w2 -> same_store w2 w3 -> same_store w1 w3.
Proof. intros (?&?&?) (?&?&?). repeat split; congruence. Qed.

Lemma store_call_cases w :
  (store_call w = (Ok tt, w) /\ faults w = [])
  \/ (exists rest, store_call w = (Ok tt, set_faults rest w)
                   /\ faults w = false :: rest)
  \/ (exists rest, store_call w = (Throw StoreUnavailable, set_faults rest w)
                   /\ faults w = true :: rest).
Proof.
  unfold store_call. destruct (faults w) as [|[] rest]; eauto.
Qed.

Lemma store_call_same_store w r w' :
  store_call w = (r, w') -> same_store w w' /\ console w' = console w.
Proof.
  destruct (store_call_cases w) as [[-> _]|[(rest & -> & _)|(rest & -> & _)]];
    intros [= <- <-]; by repeat split.
Qed.

Lemma store_call_now w r w' : store_call w = (r, w') -> now w' = now w.
Proof.
  unfold store_call. destruct (faults w) as [|[] rest]; by intros [= <- <-].
Qed.

Lemma console_write_run lvl msg w :
  console_write lvl msg w
  = (Ok tt, set_console (console w ++ [(lvl, msg)]) w).
Proof. reflexivity. Qed.

Lemma Product_findOne_same_store pid w r w1 :
  Product_findOne pid w = (r, w1) -> same_store w w1 /\ console w1 = console w.
Proof.
  unfold Product_findOne. unfold_M.
  destruct (store_call w) as [[[]|e] w0] eqn:Hcall;
    apply store_call_same_store in Hcall;
    destruct pid; intros [= <- <-]; exact Hcall.
Qed.

Lemma snapshotLookup_cases pid data w :
  match Product_findOne pid w with
  | (Ok (Some p), w1) =>
      snapshotLookup pid data w
      = (Ok (populate p data),
         set_console (console w1 ++ [(Log, "Fetched product for snapshot:")]) w1)
  | (Ok None, w1) => snapshotLookup pid data w = (Ok data, w1)
  | (Throw e, w1) => snapshotLookup pid data w = (Throw e, w1)
  end.
Proof.
  unfold snapshotLookup. unfold_M.
  destruct (Product_findOne pid w) as [[[p|]|e] w1]; reflexivity.
Qed.

(** The snapshot step always completes, with [data] populated from the
    fetched Product when there is one and untouched otherwise. *)
Lemma populateSnapshots_run operation item data w :
  exists w',
    populateSnapshots operation item data w
    = (Ok (match fetchedProduct operation item data w with
           | Some p => populate p data
           | None => data
           end), w')
    /\ same_store w w'.
Proof.
  unfold populateSnapshots, fetchedProduct.
  destruct (truthy _ && _).
  2: { eexists. split; [reflexivity | apply same_store_refl]. }
  unfold try_catch.
  pose proof (snapshotLookup_cases (resolveProductId operation item data) data w) as Hl.
  destruct (Product_findOne _ w) as [[[p|]|e] w1] eqn:Hfind;
    apply Product_findOne_same_store in Hfind as [Hs _]; rewrite Hl;
    eexists; (split; [reflexivity | exact Hs]).
Qed.

Lemma Product_findOne_console pid c w :
  fst (Product_findOne pid (set_console c w)) = fst (Product_findOne pid w).
Proof.
  unfold Product_findOne, store_call. unfold_M. simpl.
  destruct (faults w) as [|[] rest]; destruct pid; reflexivity.
Qed.

(** What is fetched depends on the store and the fault schedule only. *)
Lemma fetchedProduct_console operation item data c w0 w :
  w0 = set_console c w ->
  fetchedProduct operation item data w0 = fetchedProduct operation item data w.
Proof.
  intros ->. unfold fetchedProduct.
  destruct (truthy _ && _); [|reflexivity].
  pose proof (Product_findOne_console (resolveProductId operation item data) c w) as H.
  destruct (Product_findOne _ (set_console c w)) as [r1 w1],
           (Product_findOne _ w) as [r2 w2]; simpl in H; by subst.
Qed.

(** [resolveInput] always returns a record, the populated data with the
    line total written over it. *)
Lemma resolveInput_run operation item resolvedData w :
  exists w',
    resolveInput operation item resolvedData w
    = (Ok (let data := match fetchedProduct operation item resolvedData w with
                       | Some p => populate p resolvedData
                       | None => resolvedData
                       end in
           <["lineTotalCents" :=
               JsNumber (js_mul (resolveQuantity item data)
                           (resolveUnitPrice item data))]>
             data), w')
    /\ same_store w w'.
Proof.
  unfold resolveInput, console_log, console_write. unfold_M.
  match goal with
  | |- context [populateSnapshots _ _ _ ?w0] =>
      destruct (populateSnapshots_run operation item resolvedData w0)
        as (w' & Hrun & Hs);
      rewrite Hrun, (fetchedProduct_console _ _ _ _ w0 w) by reflexivity
  end.
  eexists. split; [reflexivity | exact Hs].
Qed.

(** ** Reading fields of the outgoing record *)

Lemma prop_insert_eq k v (data : gmap string JsValue) : prop (<[k := v]> data) k = v.
Proof. unfold prop. by rewrite lookup_insert_eq. Qed.

Lemma prop_insert_ne k k' v (data : gmap string JsValue) :
  k <> k' -> prop (<[k := v]> data) k' = prop data k'.
Proof. intros. unfold prop. by rewrite lookup_insert_ne. Qed.

Lemma populate_name p data :
  prop (populate p data) "productNameSnapshot"
  = if needName data then JsString (name p) else prop data "productNameSnapshot".
Proof.
  unfold populate.
  destruct (needPrice data), (needName data);
    rewrite ?prop_insert_ne, ?prop_insert_eq by discriminate; reflexivity.
Qed.

Lemma populate_price p data :
  prop (populate p data) "unitPriceCents"
  = if needPrice data then JsNumber (priceCents p) else prop data "unitPriceCents".
Proof.
  unfold populate.
  destruct (needPrice data), (needName data);
    rewrite ?prop_insert_eq, ?prop_insert_ne by discriminate; reflexivity.
Qed.

Lemma populate_other p data k :
  k <> "productNameSnapshot" -> k <> "unitPriceCents" ->
  prop (populate p data) k = prop data k.
Proof.
  intros. unfold populate.
  destruct (needPrice data), (needName data);
    rewrite ?prop_insert_ne by congruence; reflexivity.
Qed.

(** The snapshot step never writes [quantity]. *)
Lemma resolveQuantity_populated item data p :
  resolveQuantity item (populate p data) = resolveQuantity item data.
Proof. unfold resolveQuantity. by rewrite populate_other. Qed.

Lemma resolveQuantity_insert item data k v :
  k <> "quantity" -> resolveQuantity item (<[k := v]> data) = resolveQuantity item data.
Proof. intros. unfold resolveQuantity. by rewrite prop_insert_ne. Qed.

Lemma resolveUnitPrice_insert item data k v :
  k <> "unitPriceCents" ->
  resolveUnitPrice item (<[k := v]> data) = resolveUnitPrice item data.
Proof. intros. unfold resolveUnitPrice. by rewrite prop_insert_ne. Qed.

(** A client-supplied [lineTotalCents] plays no part in the snapshot step. *)
Lemma resolveProductId_insert operation item data k v :
  k <> "product" ->
  resolveProductId operation item (<[k := v]> data)
  = resolveProductId operation item data.
Proof. intros. unfold resolveProductId. by rewrite !prop_insert_ne. Qed.

Lemma populate_insert_lineTotal p data v :
  populate p (<["lineTotalCents" := v]> data)
  = <["lineTotalCents" := v]> (populate p data).
Proof.
  unfold populate, needName, needPrice.
  rewrite !prop_insert_ne by discriminate.
  destruct (is_undefined (prop data "unitPriceCents")),
           (_ || _ || _); try reflexivity;
    repeat (rewrite (insert_insert_ne _ "lineTotalCents") by discriminate);
    reflexivity.
Qed.

Lemma needName_insert data k v :
  k <> "productNameSnapshot" -> needName (<[k := v]> data) = needName data.
Proof. intros. unfold needName. by rewrite !prop_insert_ne. Qed.

Lemma needPrice_insert data k v :
  k <> "unitPriceCents" -> needPrice (<[k := v]> data) = needPrice data.
Proof. intros. unfold needPrice. by rewrite !prop_insert_ne. Qed.

Lemma fetchedProduct_insert_lineTotal operation item data v w :
  fetchedProduct operation item (<["lineTotalCents" := v]> data) w
  = fetchedProduct operation item data w.
Proof.
  unfold fetchedProduct.
  by rewrite resolveProductId_insert, needName_insert, needPrice_insert.
Qed.

Lemma populateSnapshots_insert_lineTotal operation item data v w :
  populateSnapshots operation item (<["lineTotalCents" := v]> data) w
  = match populateSnapshots operation item data w with
    | (Ok d, w') => (Ok (<["lineTotalCents" := v]> d), w')
    | (Throw e, w') => (Throw e, w')
    end.
Proof.
  unfold populateSnapshots.
  rewrite resolveProductId_insert, needName_insert, needPrice_insert by discriminate.
  destruct (truthy _ && _); [|reflexivity].
  unfold try_catch.
  pose proof (snapshotLookup_cases (resolveProductId operation item data) data w) as H1.
  pose proof (snapshotLookup_cases (resolveProductId operation item data)
                (<["lineTotalCents" := v]> data) w) as H2.
  destruct (Product_findOne _ w) as [[[p|]|e] w1]; rewrite H1, H2;
    rewrite ?populate_insert_lineTotal; reflexivity.
Qed.

(** The line total is written last, over whatever the client sent. *)
Lemma resolveInput_insert_lineTotal operation item resolvedData v w :
  resolveInput operation item (<["lineTotalCents" := v]> resolvedData) w
  = resolveInput operation item resolvedData w.
Proof.
  unfold resolveInput, console_log, console_write. unfold_M.
  rewrite populateSnapshots_insert_lineTotal.
  destruct (populateSnapshots _ _ _ _) as [[d|e] w']; [|reflexivity].
  rewrite insert_insert_eq.
  by rewrite !resolveQuantity_insert, !resolveUnitPrice_insert.
Qed.

(** ** The resolver *)

(** C2.  After the resolver runs, the outgoing [lineTotalCents] is the
    double-precision product of the effective quantity and the effective
    unit price.  That is their exact product whenever the exact product is
    at most 2^53 in magnitude, and so whenever the value the resolver
    returns is below 2^53, as every value of a 32-bit integer column is.
    The result is the same whatever [lineTotalCents] the client supplied;
    and a write with explicit [unitPriceCents = 500] and [quantity = 3] (in
    particular a create whose product is unresolved) yields
    [lineTotalCents = 1500]. *)
Theorem resolveInput_lineTotalCents operation item resolvedData w :
  exists out w',
    resolveInput operation item resolvedData w = (Ok out, w')
    /\ prop out "lineTotalCents"
       = JsNumber (js_mul (resolveQuantity item out) (resolveUnitPrice item out))
    /\ (Z.abs (resolveQuantity item out * resolveUnitPrice item out) <= 2 ^ 53 ->
        prop out "lineTotalCents"
        = JsNumber (resolveQuantity item out * resolveUnitPrice item out))
    /\ (forall total,
          prop out "lineTotalCents" = JsNumber total ->
          Z.abs total < 2 ^ 53 ->
          total = resolveQuantity item out * resolveUnitPrice item out)
    /\ (forall supplied,
          resolveInput operation item
            (<["lineTotalCents" := supplied]> resolvedData) w = (Ok out, w'))
    /\ (prop resolvedData "unitPriceCents" = JsNumber 500 ->
        prop resolvedData "quantity" = JsNumber 3 ->
        prop out "lineTotalCents" = JsNumber 1500).
Proof.
  destruct (resolveInput_run operation item resolvedData w) as (w' & Hrun & _).
  eexists _, w'. split; [exact Hrun|]. cbv zeta.
  set (data := match fetchedProduct _ _ _ _ with Some p => _ | None => _ end).
  rewrite prop_insert_eq, resolveQuantity_insert, resolveUnitPrice_insert
    by discriminate.
  split; [reflexivity|]. split; [|split; [|split]].
  - intros Hbound. by rewrite js_mul_exact.
  - intros total [= <-] Hsmall. by apply round_to_double_small.
  - intros supplied. by rewrite resolveInput_insert_lineTotal.
  - intros Hprice Hquantity.
    assert (prop data "quantity" = JsNumber 3) as Hq.
    { subst data. destruct (fetchedProduct _ _ _ _); [|done].
      by rewrite populate_other. }
    assert (prop data "unitPriceCents" = JsNumber 500) as Hp.
    { subst data. destruct (fetchedProduct _ _ _ _); [|done].
      rewrite populate_price. unfold needPrice. by rewrite Hprice. }
    unfold resolveQuantity, resolveUnitPrice. by rewrite Hq, Hp.
Qed.

(** A create with an unresolved product, [unitPriceCents = 500],
    [quantity = 3] and a bogus client line total. *)
Lemma resolveInput_lineTotalCents_witness :
  resolveProductId create None
    {[ "unitPriceCents" := JsNumber 500; "quantity" := JsNumber 3;
       "lineTotalCents" := JsNumber 7 ]} = JsUndefined
  /\ exists out w',
      resolveInput create None
        {[ "unitPriceCents" := JsNumber 500; "quantity" := JsNumber 3;
           "lineTotalCents" := JsNumber 7 ]} Examples.shop = (Ok out, w')
      /\ Z.abs (resolveQuantity None out * resolveUnitPrice None out) <= 2 ^ 53
      /\ prop out "lineTotalCents"
         = JsNumber (resolveQuantity None out * resolveUnitPrice None out)
      /\ prop out "lineTotalCents" = JsNumber 1500.
Proof.
  split; [reflexivity|].
  destruct (resolveInput_lineTotalCents create None
              {[ "unitPriceCents" := JsNumber 500; "quantity" := JsNumber 3;
                 "lineTotalCents" := JsNumber 7 ]} Examples.shop)
    as (out & w' & Hrun & _ & Hexact & _ & _ & Hexample).
  assert (Z.abs (resolveQuantity None out * resolveUnitPrice None out) <= 2 ^ 53)
    as Hbound.
  { vm_compute in Hrun. injection Hrun as <- _. vm_compute. discriminate. }
  exists out, w'. split; [exact Hrun|]. split; [exact Hbound|].
  split; [exact (Hexact Hbound) | apply Hexample; reflexivity].
Defined.

(** Two in-range 32-bit values whose product no double holds: the
    resolver returns the neighbouring double, one below the exact product. *)
Lemma resolveInput_lineTotalCents_rounds :
  exists out w',
    resolveInput create None
      {[ "unitPriceCents" := JsNumber 2147483647;
         "quantity" := JsNumber 2147483647 ]} Examples.shop = (Ok out, w')
    /\ resolveQuantity None out = 2147483647
    /\ resolveUnitPrice None out = 2147483647
    /\ prop out "lineTotalCents" = JsNumber 4611686014132420608
    /\ prop out "lineTotalCents"
       <> JsNumber (resolveQuantity None out * resolveUnitPrice None out).
Proof.
  eexists _, _. split; [reflexivity|].
  repeat split; try (vm_compute; reflexivity).
  vm_compute. discriminate.
Qed.

(** C7.  The effective quantity is the proposed quantity when the write
    carries one, else the stored quantity of the item being updated, else
    1; it is the quantity that the resolver multiplies (as a double
    product) into the line total;
    and with a stored quantity at hand (every update of a validated item)
    the default is not reached, so it arises on create only. *)
Theorem resolveQuantity_effective operation item resolvedData w :
  resolveQuantity item resolvedData
  = effectiveQuantity_spec (number_of (prop resolvedData "quantity"))
      (item ≫= quantity)
  /\ (exists out w',
        resolveInput operation item resolvedData w = (Ok out, w')
        /\ prop out "lineTotalCents"
           = JsNumber (js_mul (resolveQuantity item resolvedData)
                              (resolveUnitPrice item out)))
  /\ (forall q, prop resolvedData "quantity" = JsNumber q ->
        resolveQuantity item resolvedData = q)
  /\ (forall stored q,
        is_number (prop resolvedData "quantity") = false ->
        item = Some stored -> quantity stored = Some q ->
        resolveQuantity item resolvedData = q)
  /\ (is_number (prop resolvedData "quantity") = false ->
      item = None ->
      resolveQuantity item resolvedData = 1).
Proof.
  repeat split.
  - unfold resolveQuantity, effectiveQuantity_spec.
    destruct (prop resolvedData "quantity"); simpl;
      by destruct (item ≫= quantity).
  - destruct (resolveInput_run operation item resolvedData w) as (w' & Hrun & _).
    eexists _, w'. split; [exact Hrun|]. cbv zeta.
    rewrite prop_insert_eq, resolveUnitPrice_insert by discriminate.
    destruct (fetchedProduct _ _ _ _); by rewrite ?resolveQuantity_populated.
  - intros q Hq. unfold resolveQuantity. by rewrite Hq.
  - intros stored q Hnum -> Hstored. unfold resolveQuantity.
    destruct (prop resolvedData "quantity"); try discriminate;
      simpl; by rewrite Hstored.
  - intros Hnum ->. unfold resolveQuantity.
    by destruct (prop resolvedData "quantity").
Qed.

(** An update that leaves [quantity] out keeps the stored quantity; a
    create that leaves it out gets 1. *)
Lemma resolveQuantity_effective_witness :
  (is_number (prop (∅ : gmap string JsValue) "quantity") = false
   /\ resolveQuantity (Some Examples.item_A) ∅ = 3)
  /\ (is_number (prop (∅ : gmap string JsValue) "quantity") = false
      /\ resolveQuantity None ∅ = 1).
Proof.
  split; (split; [reflexivity|]).
  - apply (resolveQuantity_effective update (Some Examples.item_A) ∅ Examples.shop)
      with (stored := Examples.item_A); reflexivity.
  - apply (resolveQuantity_effective create None ∅ Examples.shop); reflexivity.
Defined.

(** C9.  On a create whose write carries no numeric [unitPriceCents] and
    for which no Product is fetched to supply one, the resolver does not
    reject the write: it returns the record with an effective unit price of
    0, hence [lineTotalCents = 0] whatever the quantity. *)
Theorem resolveInput_create_no_price resolvedData w :
  is_number (prop resolvedData "unitPriceCents") = false ->
  (needPrice resolvedData = true ->
   fetchedProduct create None resolvedData w = None) ->
  exists out w',
    resolveInput create None resolvedData w = (Ok out, w')
    /\ prop out "unitPriceCents" = prop resolvedData "unitPriceCents"
    /\ resolveUnitPrice None out = 0
    /\ prop out "lineTotalCents" = JsNumber 0.
Proof.
  intros Hnum Hfetch.
  destruct (resolveInput_run create None resolvedData w) as (w' & Hrun & _).
  eexists _, w'. split; [exact Hrun|]. cbv zeta.
  set (data := match fetchedProduct _ _ _ _ with Some p => _ | None => _ end).
  assert (prop data "unitPriceCents" = prop resolvedData "unitPriceCents") as Hp.
  { subst data. destruct (fetchedProduct _ _ _ _) eqn:Hf; [|done].
    rewrite populate_price. destruct (needPrice resolvedData); [|done].
    specialize (Hfetch eq_refl). congruence. }
  assert (resolveUnitPrice None data = 0) as Hzero.
  { unfold resolveUnitPrice. rewrite Hp.
    by destruct (prop resolvedData "unitPriceCents"). }
  rewrite prop_insert_ne, prop_insert_eq, resolveUnitPrice_insert by discriminate.
  rewrite Hzero, js_mul_0_r. done.
Qed.

(** A create of 5 units with nothing to price them. *)
Lemma resolveInput_create_no_price_witness :
  is_number (prop ({[ "quantity" := JsNumber 5 ]} : gmap string JsValue)
               "unitPriceCents") = false
  /\ fetchedProduct create None {[ "quantity" := JsNumber 5 ]} Examples.shop = None
  /\ exists out w',
      resolveInput create None {[ "quantity" := JsNumber 5 ]} Examples.shop
      = (Ok out, w')
      /\ prop out "unitPriceCents"
         = prop ({[ "quantity" := JsNumber 5 ]} : gmap string JsValue) "unitPriceCents"
      /\ resolveUnitPrice None out = 0
      /\ prop out "lineTotalCents" = JsNumber 0.
Proof.
  split; [reflexivity|]. split; [reflexivity|].
  apply (resolveInput_create_no_price {[ "quantity" := JsNumber 5 ]} Examples.shop);
    reflexivity.
Defined.

(** C4.  A create that connects a Product, supplies no name (absent, null
    or empty) and no unit price, and whose lookup the store answers with
    that Product, leaves the resolver with the Product's current name and
    price in the snapshot fields. *)
Theorem resolveInput_create_snapshots resolvedData pid product w :
  opt_prop (opt_prop (prop resolvedData "product") "connect") "id" = JsString pid ->
  pid <> "" ->
  (prop resolvedData "productNameSnapshot" = JsUndefined
   \/ prop resolvedData "productNameSnapshot" = JsNull
   \/ prop resolvedData "productNameSnapshot" = JsString "") ->
  prop resolvedData "unitPriceCents" = JsUndefined ->
  store_up 1 w ->
  Product_table w !! pid = Some product ->
  fetchedProduct create None resolvedData w = Some product
  /\ exists out w',
      resolveInput create None resolvedData w = (Ok out, w')
      /\ prop out "productNameSnapshot" = JsString (name product)
      /\ prop out "unitPriceCents" = JsNumber (priceCents product).
Proof.
  intros Hid Hpid Hname Hprice Hup Hproduct.
  assert (resolveProductId create None resolvedData = JsString pid) as Hresolved.
  { unfold resolveProductId. rewrite Hid. simpl.
    destruct (String.eqb_spec pid ""); [contradiction | reflexivity]. }
  assert (needName resolvedData = true) as HneedName.
  { unfold needName. by destruct Hname as [-> | [-> | ->]]. }
  assert (needPrice resolvedData = true) as HneedPrice.
  { unfold needPrice. by rewrite Hprice. }
  assert (fetchedProduct create None resolvedData w = Some product) as Hfetched.
  { unfold fetchedProduct. rewrite Hresolved, HneedName. simpl.
    destruct (String.eqb_spec pid ""); [contradiction|]. simpl.
    unfold Product_findOne, store_call, store_up in *. unfold_M.
    destruct (faults w) as [|[] rest]; simpl; try done.
    by apply Forall_cons in Hup as [? _]. }
  split; [exact Hfetched|].
  destruct (resolveInput_run create None resolvedData w) as (w' & Hrun & _).
  eexists _, w'. split; [exact Hrun|]. cbv zeta. rewrite Hfetched.
  rewrite !prop_insert_ne by discriminate.
  by rewrite populate_name, populate_price, HneedName, HneedPrice.
Qed.

(** A create of two Widgets, naming only the Product and the quantity. *)
Lemma resolveInput_create_snapshots_witness :
  exists out w',
    resolveInput create None
      {[ "product" := Examples.connect "p1"; "quantity" := JsNumber 2 ]}
      Examples.shop = (Ok out, w')
    /\ prop out "productNameSnapshot" = JsString "Widget"
    /\ prop out "unitPriceCents" = JsNumber 1999.
Proof.
  apply (resolveInput_create_snapshots
           {[ "product" := Examples.connect "p1"; "quantity" := JsNumber 2 ]}
           "p1" Examples.widget Examples.shop).
  - reflexivity.
  - discriminate.
  - left. reflexivity.
  - reflexivity.
  - apply Forall_nil_2.
  - reflexivity.
Defined.

(** C10.  The name counts as missing when it is [undefined], [null] or
    the empty string, the price only when it is [undefined].  So a write
    with [unitPriceCents: null] and a null or empty name, for which a
    Product is fetched, has its name repopulated from the Product while the
    price stays unpopulated and the line total (a double product) falls
    back to the stored unit price, or to 0. *)
Theorem needName_needPrice_asymmetry :
  (forall data,
     needName data = true <->
     prop data "productNameSnapshot" = JsUndefined
     \/ prop data "productNameSnapshot" = JsNull
     \/ prop data "productNameSnapshot" = JsString "")
  /\ (forall data,
        needPrice data = true <-> prop data "unitPriceCents" = JsUndefined)
  /\ (forall operation item resolvedData w product,
        prop resolvedData "unitPriceCents" = JsNull ->
        (prop resolvedData "productNameSnapshot" = JsNull
         \/ prop resolvedData "productNameSnapshot" = JsString "") ->
        fetchedProduct operation item resolvedData w = Some product ->
        exists out w',
          resolveInput operation item resolvedData w = (Ok out, w')
          /\ prop out "productNameSnapshot" = JsString (name product)
          /\ prop out "unitPriceCents" = JsNull
          /\ prop out "lineTotalCents"
             = JsNumber (js_mul (resolveQuantity item resolvedData)
                                (default 0 (item ≫= unitPriceCents)))).
Proof.
  split; [|split].
  - intros data. unfold needName.
    destruct (prop data "productNameSnapshot") as [| | |?|t|?]; simpl;
      try (split; [discriminate | intros [H|[H|H]]; discriminate]);
      try (split; [intros _; auto | reflexivity]).
    destruct (String.eqb_spec t "") as [->|Hne].
    + split; [auto | reflexivity].
    + split; [discriminate|]. intros [H|[H|H]]; try discriminate.
      by injection H.
  - intros data. unfold needPrice.
    destruct (prop data "unitPriceCents"); simpl;
      (split; [try discriminate; reflexivity | try discriminate; reflexivity]).
  - intros operation item resolvedData w product Hprice Hname Hfetched.
    destruct (resolveInput_run operation item resolvedData w) as (w' & Hrun & _).
    eexists _, w'. split; [exact Hrun|]. cbv zeta. rewrite Hfetched.
    rewrite !prop_insert_ne, prop_insert_eq by discriminate.
    rewrite populate_name, populate_price, resolveQuantity_populated.
    unfold resolveUnitPrice. rewrite populate_price.
    unfold needPrice, needName. rewrite Hprice. simpl.
    by destruct Hname as [-> | ->].
Qed.

(** An update of the stored Widget line that sends a null price and an
    empty name: the name is refetched, the price is not, and the line
    total uses the stored 1999. *)
Lemma needName_needPrice_asymmetry_witness :
  fetchedProduct update (Some Examples.widget_line)
    {[ "unitPriceCents" := JsNull; "productNameSnapshot" := JsString "";
       "quantity" := JsNumber 3 ]} Examples.shop_repriced
  = Some {| name := "Widget Pro"; priceCents := 2500 |}
  /\ exists out w',
      resolveInput update (Some Examples.widget_line)
        {[ "unitPriceCents" := JsNull; "productNameSnapshot" := JsString "";
           "quantity" := JsNumber 3 ]} Examples.shop_repriced = (Ok out, w')
      /\ prop out "productNameSnapshot" = JsString "Widget Pro"
      /\ prop out "unitPriceCents" = JsNull
      /\ prop out "lineTotalCents" = JsNumber (3 * 1999).
Proof.
  split; [reflexivity|].
  destruct needName_needPrice_asymmetry as (_ & _ & Hwrite).
  destruct (Hwrite update (Some Examples.widget_line)
              {[ "unitPriceCents" := JsNull; "productNameSnapshot" := JsString "";
                 "quantity" := JsNumber 3 ]}
              Examples.shop_repriced
              {| name := "Widget Pro"; priceCents := 2500 |})
    as (out & w' & Hrun & Hname & Hprice & Htotal).
  - reflexivity.
  - right. reflexivity.
  - reflexivity.
  - exists out, w'. repeat split; [exact Hrun | exact Hname | exact Hprice | exact Htotal].
Defined.

(** C1.  The resolver decides what is missing by looking at the write
    alone.  An update that changes only [quantity] carries neither snapshot
    field, so the resolver falls back to the stored [productId], fetches
    the Product as it is now and returns its current name and price for the
    update to store: the stored snapshot "Widget" at 1999 is replaced by
    "Widget Pro" at 2500. *)
Theorem resolveInput_quantity_update_overwrites_snapshot :
  productNameSnapshot Examples.widget_line = "Widget"
  /\ unitPriceCents Examples.widget_line = Some 1999
  /\ fst (resolveInput update (Some Examples.widget_line)
            {[ "quantity" := JsNumber 2 ]} Examples.shop_repriced)
     = Ok {[ "quantity" := JsNumber 2;
             "productNameSnapshot" := JsString "Widget Pro";
             "unitPriceCents" := JsNumber 2500;
             "lineTotalCents" := JsNumber 5000 ]}.
Proof. repeat split; vm_compute; reflexivity. Qed.

(** ** The recalculator *)

Lemma lineTotal_or_zero_default oi :
  lineTotal_or_zero oi = default 0 (lineTotalCents oi).
Proof.
  unfold lineTotal_or_zero. destruct (lineTotalCents oi) as [n|]; [|done].
  simpl. destruct (Z.eqb_spec n 0); congruence.
Qed.

Lemma fold_left_total items acc :
  fold_left (fun sum oi => sum + lineTotal_or_zero oi) items acc
  = acc + sum_lineTotals_spec items.
Proof.
  revert acc. induction items as [|oi items IH]; intros acc; simpl.
  - lia.
  - rewrite IH, lineTotal_or_zero_default. lia.
Qed.

(** The [reduce] of the source computes the specified sum. *)
Lemma reduce_total_sum items : reduce_total items = sum_lineTotals_spec items.
Proof. unfold reduce_total. by rewrite fold_left_total. Qed.

Lemma store_up_call n w :
  store_up (S n) w ->
  exists w1, store_call w = (Ok tt, w1)
             /\ store_up n w1 /\ same_store w w1 /\ console w1 = console w.
Proof.
  unfold store_up, store_call. destruct (faults w) as [|b rest] eqn:Hf.
  - intros _. exists w. rewrite Hf, take_nil. by repeat split.
  - simpl. intros [-> Hrest]%Forall_cons. eexists. split; [reflexivity|].
    by repeat split.
Qed.

Lemma validate_total_ok total :
  0 <= total -> validate_integer OrderFields.totalCents update (JsNumber total) = [].
Proof. intros. simpl. destruct (Z.ltb_spec total 0); [lia | done]. Qed.

(** A recalculation that the store answers writes the sum of the Order's
    line totals into the Order, and nothing else. *)
Lemma recalculate_ok oid o w :
  store_up 2 w ->
  Order_table w !! oid = Some o ->
  0 <= sum_lineTotals_spec (order_items oid (OrderItem_table w)) ->
  exists w',
    recalculate oid w = (Ok tt, w')
    /\ Product_table w' = Product_table w
    /\ OrderItem_table w' = OrderItem_table w
    /\ Order_table w'
       = <[oid := Order_set_totalCents
                     (sum_lineTotals_spec (order_items oid (OrderItem_table w)))
                     (now w) o]>
           (Order_table w)
    /\ now w' = now w
    /\ console w' = console w.
Proof.
  intros Hup Horder Hsum.
  destruct (store_up_call _ _ Hup) as (w1 & Hcall1 & Hup1 & (Hp1 & Hi1 & Ho1) & Hc1).
  destruct (store_up_call _ _ Hup1) as (w2 & Hcall2 & _ & (Hp2 & Hi2 & Ho2) & Hc2).
  pose proof (store_call_now _ _ _ Hcall1) as Hn1.
  pose proof (store_call_now _ _ _ Hcall2) as Hn2.
  unfold recalculate, OrderItem_findMany, Order_updateOne. unfold_M.
  rewrite Hcall1, Hcall2, Ho2, Ho1, Horder, reduce_total_sum.
  fold (order_items oid (OrderItem_table w1)). rewrite Hi1.
  rewrite validate_total_ok by done.
  eexists. split; [reflexivity|]. simpl.
  repeat split; congruence.
Qed.

(** A recalculation never touches Products, items or the console, and one
    that raises leaves the Orders alone too. *)
Lemma recalculate_frame oid w r w' :
  recalculate oid w = (r, w') ->
  Product_table w' = Product_table w
  /\ OrderItem_table w' = OrderItem_table w
  /\ console w' = console w
  /\ (forall e, r = Throw e -> Order_table w' = Order_table w).
Proof.
  unfold recalculate, OrderItem_findMany, Order_updateOne. unfold_M.
  destruct (store_call w) as [[[]|e1] w1] eqn:Hcall1;
    apply store_call_same_store in Hcall1 as ((Hp1 & Hi1 & Ho1) & Hc1).
  2: { intros [= <- <-]. repeat split; congruence. }
  destruct (store_call w1) as [[[]|e2] w2] eqn:Hcall2;
    apply store_call_same_store in Hcall2 as ((Hp2 & Hi2 & Ho2) & Hc2).
  2: { intros [= <- <-]. repeat split; congruence. }
  destruct (Order_table w2 !! oid) as [o|].
  2: { intros [= <- <-]. repeat split; congruence. }
  destruct (validate_integer _ _ _).
  - intros [= <- <-]. simpl. repeat split; congruence.
  - intros [= <- <-]. repeat split; congruence.
Qed.

(** The recalculator always returns, and never touches the items. *)
Lemma afterOperation_items operation item originalItem w :
  exists w',
    afterOperation operation item originalItem w = (Ok tt, w')
    /\ OrderItem_table w' = OrderItem_table w.
Proof.
  unfold afterOperation.
  destruct (effectiveOrderId item originalItem) as [oid|]; [|by eexists].
  unfold try_catch.
  destruct (recalculate oid w) as [[[]|e] w1] eqn:Hrun;
    apply recalculate_frame in Hrun as (_ & Hi & _); eexists; by split.
Qed.

Lemma sum_lineTotals_nonneg items :
  Forall (fun oi => 0 <= default 0 (lineTotalCents oi)) items ->
  0 <= sum_lineTotals_spec items.
Proof. induction 1; simpl; lia. Qed.

Lemma order_items_total_nonneg oid w :
  lineTotals_valid w ->
  0 <= sum_lineTotals_spec (order_items oid (OrderItem_table w)).
Proof.
  intros Hvalid. apply sum_lineTotals_nonneg.
  unfold order_items. unfold lineTotals_valid in Hvalid.
  induction Hvalid as [|oi items Hoi _ IH]; [constructor|].
  rewrite filter_cons. case_decide; [constructor|]; done.
Qed.

(** What [afterOperation] does when the Order is resolvable and the store
    answers: the shared core of the statements on the recalculator. *)
Lemma afterOperation_ok operation item originalItem oid o w :
  effectiveOrderId item originalItem = Some oid ->
  Order_table w !! oid = Some o ->
  store_up 2 w ->
  lineTotals_valid w ->
  exists w',
    afterOperation operation item originalItem w = (Ok tt, w')
    /\ Product_table w' = Product_table w
    /\ OrderItem_table w' = OrderItem_table w
    /\ Order_table w'
       = <[oid := Order_set_totalCents
                     (sum_lineTotals_spec (order_items oid (OrderItem_table w)))
                     (now w) o]>
           (Order_table w)
    /\ now w' = now w
    /\ console w' = console w.
Proof.
  intros Hoid Horder Hup Hvalid.
  destruct (recalculate_ok oid o w Hup Horder (order_items_total_nonneg oid w Hvalid))
    as (w' & Hrun & Hrest).
  exists w'. unfold afterOperation, try_catch. by rewrite Hoid, Hrun.
Qed.

Lemma effectiveOrderId_Some item originalItem stored oid :
  effectiveItem item originalItem = Some stored ->
  orderId stored = Some oid -> oid <> "" ->
  effectiveOrderId item originalItem = Some oid.
Proof.
  intros Heff Horder Hne. unfold effectiveOrderId. rewrite Heff. simpl.
  rewrite Horder. destruct (String.eqb_spec oid ""); [contradiction | done].
Qed.

(** C3.  After a create, update or delete whose item names an Order, with
    the store answering the listing and the update, the Order's
    [totalCents] is the sum of [lineTotalCents] over the items that belong
    to it in the committed store, a null line total counting as zero; the
    items and every other Order are left as they were. *)
Theorem afterOperation_recalculates_total operation item originalItem oid o w :
  effectiveOrderId item originalItem = Some oid ->
  Order_table w !! oid = Some o ->
  store_up 2 w ->
  lineTotals_valid w ->
  exists w',
    afterOperation operation item originalItem w = (Ok tt, w')
    /\ OrderItem_table w' = OrderItem_table w
    /\ totalCents <$> Order_table w' !! oid
       = Some (sum_lineTotals_spec (order_items oid (OrderItem_table w')))
    /\ (forall other, other <> oid ->
          Order_table w' !! other = Order_table w !! other).
Proof.
  intros Hoid Horder Hup Hvalid.
  destruct (afterOperation_ok operation item originalItem oid o w
              Hoid Horder Hup Hvalid) as (w' & Hrun & _ & Hitems & Horders & _).
  exists w'. split; [exact Hrun|]. split; [exact Hitems|]. split.
  - by rewrite Horders, Hitems, lookup_insert_eq.
  - intros other Hne. by rewrite Horders, lookup_insert_ne.
Qed.

(** Items A (1500) and B (2998) under Order o1: after B's create the
    total is 4498. *)
Lemma afterOperation_recalculates_total_witness :
  effectiveOrderId (Some Examples.item_B) None = Some "o1"
  /\ exists w',
      afterOperation create (Some Examples.item_B) None
        (Examples.shop_with [Examples.item_A; Examples.item_B] 1500 [])
      = (Ok tt, w')
      /\ OrderItem_table w' = [Examples.item_A; Examples.item_B]
      /\ totalCents <$> Order_table w' !! "o1" = Some 4498.
Proof.
  split; [reflexivity|].
  destruct (afterOperation_recalculates_total create (Some Examples.item_B) None
              "o1" (Examples.order_row pending "USD" 1500)
              (Examples.shop_with [Examples.item_A; Examples.item_B] 1500 []))
    as (w' & Hrun & Hitems & Htotal & _).
  - reflexivity.
  - reflexivity.
  - apply Forall_nil_2.
  - repeat constructor; simpl; lia.
  - exists w'. split; [exact Hrun|]. split; [exact Hitems|].
    rewrite Htotal, Hitems. reflexivity.
Defined.

(** C6.  A delete recalculates the Order named by the pre-delete item, a
    create or update the Order named by the post-write item (whatever the
    original item named); and when the affected item names no Order the
    hook returns at once, leaving the world as it was. *)
Theorem afterOperation_order_resolution :
  (forall originalItem,
     effectiveItem None (Some originalItem) = Some originalItem)
  /\ (forall item originalItem,
        effectiveItem (Some item) originalItem = Some item)
  /\ (forall originalItem oid o w,
        orderId originalItem = Some oid -> oid <> "" ->
        Order_table w !! oid = Some o -> store_up 2 w -> lineTotals_valid w ->
        exists w',
          afterOperation delete None (Some originalItem) w = (Ok tt, w')
          /\ totalCents <$> Order_table w' !! oid
             = Some (sum_lineTotals_spec (order_items oid (OrderItem_table w))))
  /\ (forall operation item originalItem oid o w,
        orderId item = Some oid -> oid <> "" ->
        Order_table w !! oid = Some o -> store_up 2 w -> lineTotals_valid w ->
        exists w',
          afterOperation operation (Some item) originalItem w = (Ok tt, w')
          /\ totalCents <$> Order_table w' !! oid
             = Some (sum_lineTotals_spec (order_items oid (OrderItem_table w)))
          /\ (forall other, other <> oid ->
                Order_table w' !! other = Order_table w !! other))
  /\ (forall operation item originalItem w,
        (effectiveItem item originalItem ≫= orderId = None
         \/ effectiveItem item originalItem ≫= orderId = Some "") ->
        afterOperation operation item originalItem w = (Ok tt, w)).
Proof.
  split; [done|]. split; [done|]. split; [|split].
  - intros originalItem oid o w Horder Hne Hstored Hup Hvalid.
    destruct (afterOperation_ok delete None (Some originalItem) oid o w)
      as (w' & Hrun & _ & _ & Horders & _); try done.
    { by apply effectiveOrderId_Some with originalItem. }
    exists w'. split; [exact Hrun|]. by rewrite Horders, lookup_insert_eq.
  - intros operation item originalItem oid o w Horder Hne Hstored Hup Hvalid.
    destruct (afterOperation_ok operation (Some item) originalItem oid o w)
      as (w' & Hrun & _ & _ & Horders & _); try done.
    { by apply effectiveOrderId_Some with item. }
    exists w'. split; [exact Hrun|]. split.
    + by rewrite Horders, lookup_insert_eq.
    + intros other Hother. by rewrite Horders, lookup_insert_ne.
  - intros operation item originalItem w Hnone.
    unfold afterOperation, effectiveOrderId.
    by destruct Hnone as [-> | ->].
Qed.

(** Item A has been deleted from Order o1, which held A and B: the
    pre-delete A still names o1, whose total becomes 2998.  An item that
    names no Order changes nothing. *)
Lemma afterOperation_order_resolution_witness :
  (exists w',
     afterOperation delete None (Some Examples.item_A)
       (Examples.shop_with [Examples.item_B] 4498 []) = (Ok tt, w')
     /\ totalCents <$> Order_table w' !! "o1" = Some 2998)
  /\ afterOperation create
       (Some {| id := "C"; orderId := None; productId := None;
                productNameSnapshot := "Loose"; unitPriceCents := Some 1;
                quantity := Some 1; lineTotalCents := Some 1 |}) None
       (Examples.shop_with [Examples.item_B] 4498 [])
     = (Ok tt, Examples.shop_with [Examples.item_B] 4498 []).
Proof.
  destruct afterOperation_order_resolution as (_ & _ & Hdelete & _ & Hnoop).
  split.
  - destruct (Hdelete Examples.item_A "o1"
                (Examples.order_row pending "USD" 4498)
                (Examples.shop_with [Examples.item_B] 4498 []))
      as (w' & Hrun & Htotal).
    + reflexivity.
    + discriminate.
    + reflexivity.
    + apply Forall_nil_2.
    + repeat constructor; simpl; lia.
    + exists w'. split; [exact Hrun | exact Htotal].
  - apply Hnoop. left. reflexivity.
Defined.

(** C5.  A failure in either hook is soft.  When the Product lookup
    raises, the resolver warns on the console and still returns the record,
    with the snapshot fields as the write supplied them.  When the
    recalculation raises (in the listing or in the Order update), the hook
    logs an error and returns normally; the committed OrderItems and every
    Order, so also [totalCents], are as before.  Neither hook ever raises. *)
Theorem hook_failures_are_soft :
  (forall operation item resolvedData w e,
     truthy (resolveProductId operation item resolvedData)
       && (needName resolvedData || needPrice resolvedData) = true ->
     fst (Product_findOne (resolveProductId operation item resolvedData) w)
       = Throw e ->
     exists out w',
       resolveInput operation item resolvedData w = (Ok out, w')
       /\ prop out "productNameSnapshot" = prop resolvedData "productNameSnapshot"
       /\ prop out "unitPriceCents" = prop resolvedData "unitPriceCents"
       /\ same_store w w'
       /\ console w'
          = (console w ++ [(Log, "OrderItem resolveInput:"); (Log, "Need name:");
                           (Warn, "Failed to fetch product for snapshot")])%list)
  /\ (forall operation item originalItem oid w e w1,
        effectiveOrderId item originalItem = Some oid ->
        recalculate oid w = (Throw e, w1) ->
        exists w',
          afterOperation operation item originalItem w = (Ok tt, w')
          /\ same_store w w'
          /\ console w'
             = (console w ++ [(Error, "Failed to recalc order total")])%list)
  /\ (forall operation item resolvedData w,
        exists out w', resolveInput operation item resolvedData w = (Ok out, w'))
  /\ (forall operation item originalItem w,
        exists w',
          afterOperation operation item originalItem w = (Ok tt, w')
          /\ OrderItem_table w' = OrderItem_table w).
Proof.
  split; [|split; [|split]].
  - intros operation item resolvedData w e Hguard Hthrow.
    unfold resolveInput, populateSnapshots, console_log, console_warn,
      console_write.
    rewrite Hguard. unfold_M.
    match goal with
    | |- context [snapshotLookup ?pid ?d ?w0] =>
        pose proof (snapshotLookup_cases pid d w0) as Hl;
        pose proof (Product_findOne_console pid (console w0) w) as Hc;
        change (set_console (console w0) w) with w0 in Hc;
        destruct (Product_findOne pid w0) as [r w1] eqn:Hfind
    end.
    simpl in Hc. rewrite Hthrow in Hc. subst r.
    apply Product_findOne_same_store in Hfind as ((Hp & Hi & Ho) & Hcon).
    rewrite Hl. eexists _, _. split; [reflexivity|].
    rewrite !prop_insert_ne by discriminate. simpl.
    repeat split; try done. rewrite Hcon. simpl. by rewrite <- !app_assoc.
  - intros operation item originalItem oid w e w1 Hoid Hthrow.
    apply recalculate_frame in Hthrow as Hframe.
    destruct Hframe as (Hp & Hi & Hc & Ho).
    unfold afterOperation, try_catch. rewrite Hoid, Hthrow.
    eexists. split; [reflexivity|]. simpl.
    repeat split; try done; [by apply (Ho e) | by rewrite Hc].
  - intros operation item resolvedData w.
    destruct (resolveInput_run operation item resolvedData w) as (w' & Hrun & _).
    eauto.
  - apply afterOperation_items.
Qed.

(** The store is down for the resolver's lookup on a quantity update of
    item B; and the Order update fails after the listing succeeded. *)
Lemma hook_failures_are_soft_witness :
  (exists out w',
     resolveInput update (Some Examples.item_B) {[ "quantity" := JsNumber 5 ]}
       (Examples.shop_with [Examples.item_B] 2998 [true]) = (Ok out, w')
     /\ prop out "productNameSnapshot" = JsUndefined
     /\ prop out "unitPriceCents" = JsUndefined
     /\ console w'
        = [(Log, "OrderItem resolveInput:"); (Log, "Need name:");
           (Warn, "Failed to fetch product for snapshot")])
  /\ (exists w',
        afterOperation update (Some Examples.item_B) (Some Examples.item_B)
          (Examples.shop_with [Examples.item_B] 1 [false; true]) = (Ok tt, w')
        /\ OrderItem_table w' = [Examples.item_B]
        /\ totalCents <$> Order_table w' !! "o1" = Some 1
        /\ console w' = [(Error, "Failed to recalc order total")]).
Proof.
  destruct hook_failures_are_soft as (Hlookup & Hrecalc & _ & _).
  split.
  - destruct (Hlookup update (Some Examples.item_B) {[ "quantity" := JsNumber 5 ]}
                (Examples.shop_with [Examples.item_B] 2998 [true]) StoreUnavailable)
      as (out & w' & Hrun & Hname & Hprice & _ & Hconsole).
    + reflexivity.
    + reflexivity.
    + exists out, w'.
      repeat split; [exact Hrun | exact Hname | exact Hprice | exact Hconsole].
  - destruct (Hrecalc update (Some Examples.item_B) (Some Examples.item_B) "o1"
                (Examples.shop_with [Examples.item_B] 1 [false; true])
                StoreUnavailable
                (Examples.shop_with [Examples.item_B] 1 []))
      as (w' & Hrun & (_ & Hitems & Horders) & Hconsole).
    + reflexivity.
    + reflexivity.
    + exists w'. split; [exact Hrun|]. split; [exact Hitems|].
      split; [by rewrite Horders | exact Hconsole].
Defined.

(** ** The write pipeline and the quantity constraint *)

Lemma commit_cases f w :
  (exists w', commit f w = (Ok tt, w')
              /\ OrderItem_table w' = f (OrderItem_table w))
  \/ (exists e w', commit f w = (Throw e, w')
                   /\ OrderItem_table w' = OrderItem_table w).
Proof.
  unfold commit. unfold_M.
  destruct (store_call w) as [[[]|e] w1] eqn:Hcall;
    apply store_call_same_store in Hcall as ((_ & Hi & _) & _).
  - left. eexists. split; [reflexivity|]. simpl. by rewrite Hi.
  - right. by eexists _, _.
Qed.

(** What passes the quantity validation. *)
Lemma validate_quantity_ok operation v :
  validate_integer OrderItemFields.quantity operation v = [] ->
  (v = JsUndefined /\ operation <> create) \/ exists q, v = JsNumber q /\ 1 <= q.
Proof.
  destruct v as [| | |n| |]; simpl; try discriminate.
  - destruct operation; simpl; try discriminate; intros _; left; by split.
  - destruct (Z.ltb_spec n 1); [discriminate|]. intros _. right. by exists n.
Qed.

Lemma validateInput_quantity operation data :
  validateInput operation data = [] ->
  validate_integer OrderItemFields.quantity operation (prop data "quantity") = [].
Proof.
  unfold validateInput.
  intros (_ & (_ & (H & _)%app_eq_nil)%app_eq_nil)%app_eq_nil. exact H.
Qed.

Lemma resolveInput_quantity operation item resolvedData w out w' :
  resolveInput operation item resolvedData w = (Ok out, w') ->
  prop out "quantity" = prop resolvedData "quantity"
  /\ OrderItem_table w' = OrderItem_table w.
Proof.
  destruct (resolveInput_run operation item resolvedData w) as (w1 & Hrun & _ & Hi & _).
  rewrite Hrun. intros [= <- <-]. split; [|exact Hi].
  rewrite prop_insert_ne by discriminate.
  destruct (fetchedProduct _ _ _ _); [by rewrite populate_other | done].
Qed.

Lemma resolveInput_Ok operation item resolvedData w r w' :
  resolveInput operation item resolvedData w = (r, w') ->
  exists out, r = Ok out.
Proof.
  destruct (resolveInput_run operation item resolvedData w) as (w1 & Hrun & _).
  rewrite Hrun. intros [= <- <-]. eauto.
Qed.

Lemma createOrderItem_quantities newId input w :
  quantities_valid w -> quantities_valid (snd (createOrderItem newId input w)).
Proof.
  intros Hvalid. unfold createOrderItem. unfold_M.
  destruct (resolveInput create None (applyDefaults input) w) as [r w1] eqn:Hres.
  destruct (resolveInput_Ok _ _ _ _ _ _ Hres) as (data & ->).
  apply resolveInput_quantity in Hres as [_ Hi].
  destruct (validateInput create data) eqn:Hval.
  2: { simpl. unfold quantities_valid. by rewrite Hi. }
  apply validateInput_quantity, validate_quantity_ok in Hval
    as [[_ Hc]|(q & Hq & Hge)]; [done|].
  match goal with
  | |- context [commit ?f w1] =>
      destruct (commit_cases f w1) as [(w2 & -> & Hi2)|(e & w2 & -> & Hi2)]
  end.
  - match goal with
    | |- context [afterOperation ?o ?i ?oi w2] =>
        destruct (afterOperation_items o i oi w2) as (w3 & -> & Hi3)
    end.
    simpl. unfold quantities_valid. rewrite Hi3, Hi2, Hi.
    apply Forall_app. split; [exact Hvalid|].
    constructor; [|constructor]. exists q. simpl. by rewrite Hq.
  - simpl. unfold quantities_valid. by rewrite Hi2, Hi.
Qed.

Lemma OrderItem_find_cases i w :
  (exists stored, OrderItem_find i w = (Ok stored, w)
                  /\ stored ∈ OrderItem_table w)
  \/ OrderItem_find i w = (Throw NotFound, w).
Proof.
  unfold OrderItem_find. unfold_M.
  destruct (List.find (has_id i) (OrderItem_table w)) as [stored|] eqn:Hfind.
  - left. exists stored. split; [done|].
    apply List.find_some in Hfind as [Hin _]. by apply list_elem_of_In.
  - by right.
Qed.

Lemma updateOrderItem_quantities i input w :
  quantities_valid w -> quantities_valid (snd (updateOrderItem i input w)).
Proof.
  intros Hvalid. unfold updateOrderItem.
  destruct (OrderItem_find_cases i w) as [(stored & Hfind & Hin)|Hfind];
    unfold mbind at 1, M_bind at 1; rewrite Hfind; [|done].
  unfold_M.
  destruct (resolveInput update (Some stored) input w) as [r w1] eqn:Hres.
  destruct (resolveInput_Ok _ _ _ _ _ _ Hres) as (data & ->).
  apply resolveInput_quantity in Hres as [_ Hi].
  destruct (validateInput update data) eqn:Hval.
  2: { simpl. unfold quantities_valid. by rewrite Hi. }
  assert (exists q, quantity (updated_item stored data) = Some q /\ 1 <= q) as Hnew.
  { apply validateInput_quantity, validate_quantity_ok in Hval
      as [[Hq _]|(q & Hq & Hge)]; simpl; rewrite Hq; simpl.
    - unfold quantities_valid in Hvalid. rewrite Forall_forall in Hvalid.
      by apply Hvalid.
    - by exists q. }
  match goal with
  | |- context [commit ?f w1] =>
      destruct (commit_cases f w1) as [(w2 & -> & Hi2)|(e & w2 & -> & Hi2)]
  end.
  - match goal with
    | |- context [afterOperation ?o ?it ?oi w2] =>
        destruct (afterOperation_items o it oi w2) as (w3 & -> & Hi3)
    end.
    simpl. unfold quantities_valid. rewrite Hi3, Hi2, Hi.
    apply Forall_map. unfold quantities_valid in Hvalid.
    eapply Forall_impl; [exact Hvalid|].
    intros oi Hoi. simpl. by destruct (has_id i oi).
  - simpl. unfold quantities_valid. by rewrite Hi2, Hi.
Qed.

Lemma deleteOrderItem_quantities i w :
  quantities_valid w -> quantities_valid (snd (deleteOrderItem i w)).
Proof.
  intros Hvalid. unfold deleteOrderItem.
  destruct (OrderItem_find_cases i w) as [(stored & Hfind & Hin)|Hfind];
    unfold mbind at 1, M_bind at 1; rewrite Hfind; [|done].
  unfold_M.
  match goal with
  | |- context [commit ?f w] =>
      destruct (commit_cases f w) as [(w2 & -> & Hi2)|(e & w2 & -> & Hi2)]
  end.
  - match goal with
    | |- context [afterOperation ?o ?it ?oi w2] =>
        destruct (afterOperation_items o it oi w2) as (w3 & -> & Hi3)
    end.
    simpl. unfold quantities_valid. rewrite Hi3, Hi2.
    unfold quantities_valid in Hvalid. rewrite Forall_forall in Hvalid.
    apply Forall_forall. intros oi Hoi. apply Hvalid.
    apply list_elem_of_In in Hoi. apply List.filter_In in Hoi as [Hoi _].
    by apply list_elem_of_In.
  - simpl. unfold quantities_valid. by rewrite Hi2.
Qed.

(** Without a lookup the resolver only logs and writes the line total. *)
Lemma resolveInput_no_lookup operation item resolvedData w :
  truthy (resolveProductId operation item resolvedData)
    && (needName resolvedData || needPrice resolvedData) = false ->
  resolveInput operation item resolvedData w
  = (Ok (<["lineTotalCents" :=
             JsNumber (js_mul (resolveQuantity item resolvedData)
                              (resolveUnitPrice item resolvedData))]>
           resolvedData),
     set_console
       (console w ++ [(Log, "OrderItem resolveInput:"); (Log, "Need name:")])%list w).
Proof.
  intros Hguard.
  unfold resolveInput, populateSnapshots, console_log, console_write.
  rewrite Hguard. unfold_M. simpl. by rewrite <- app_assoc.
Qed.

Lemma applyDefaults_quantity input q :
  prop input "quantity" = JsNumber q -> applyDefaults input = input.
Proof. intros Hq. unfold applyDefaults. by rewrite Hq. Qed.

(** C8.  A create with [quantity = 0] is rejected with a
    [ValidationError] and stores nothing; a create with [quantity = 1]
    (with a name and a non-negative unit price, and the store answering the
    write) is accepted and stored; the quantity validation passes only
    integers of at least 1; and so every stored OrderItem keeps a quantity
    of at least 1 through creates, updates and deletes. *)
Theorem quantity_at_least_one :
  (forall newId input w,
     prop input "quantity" = JsNumber 0 ->
     exists messages w',
       createOrderItem newId input w = (Throw (ValidationError messages), w')
       /\ "Quantity is below its minimum" ∈ messages
       /\ OrderItem_table w' = OrderItem_table w)
  /\ (forall newId input name price w,
        prop input "quantity" = JsNumber 1 ->
        prop input "productNameSnapshot" = JsString name -> name <> "" ->
        prop input "unitPriceCents" = JsNumber price -> 0 <= price ->
        store_up 1 w ->
        exists item w',
          createOrderItem newId input w = (Ok item, w')
          /\ quantity item = Some 1
          /\ OrderItem_table w' = (OrderItem_table w ++ [item])%list)
  /\ (forall operation v,
        validate_integer OrderItemFields.quantity operation v = [] ->
        (v = JsUndefined /\ operation <> create)
        \/ exists q, v = JsNumber q /\ 1 <= q)
  /\ (forall newId input w,
        quantities_valid w ->
        quantities_valid (snd (createOrderItem newId input w)))
  /\ (forall i input w,
        quantities_valid w ->
        quantities_valid (snd (updateOrderItem i input w)))
  /\ (forall i w,
        quantities_valid w -> quantities_valid (snd (deleteOrderItem i w))).
Proof.
  split; [|split; [|split; [|split; [|split]]]].
  - intros newId input w Hzero.
    unfold createOrderItem. unfold_M.
    rewrite (applyDefaults_quantity input 0 Hzero).
    destruct (resolveInput create None input w) as [r w1] eqn:Hres.
    destruct (resolveInput_Ok _ _ _ _ _ _ Hres) as (data & ->).
    apply resolveInput_quantity in Hres as [Hq Hi].
    assert ("Quantity is below its minimum" ∈ validateInput create data) as Hin.
    { unfold validateInput. rewrite Hq, Hzero. simpl.
      rewrite !elem_of_app. right. right. apply list_elem_of_here. }
    destruct (validateInput create data) as [|m ms].
    { by apply not_elem_of_nil in Hin. }
    by eexists _, _.
  - intros newId input name price w Hone Hname Hne Hprice Hge Hup.
    unfold createOrderItem.
    rewrite (applyDefaults_quantity input 1 Hone).
    assert (needName input = false) as HneedName.
    { unfold needName. rewrite Hname. simpl.
      destruct (String.eqb_spec name ""); [contradiction | reflexivity]. }
    assert (needPrice input = false) as HneedPrice.
    { unfold needPrice. by rewrite Hprice. }
    unfold mbind at 1, M_bind at 1.
    rewrite resolveInput_no_lookup
      by (rewrite HneedName, HneedPrice; apply andb_false_r).
    unfold resolveQuantity, resolveUnitPrice. rewrite Hone, Hprice.
    match goal with
    | |- context [validateInput create ?d] =>
        assert (validateInput create d = []) as ->
    end.
    { unfold validateInput.
      rewrite prop_insert_eq, !prop_insert_ne by discriminate.
      rewrite Hname, Hprice, Hone. simpl.
      destruct (String.eqb_spec name ""); [contradiction|].
      destruct (Z.ltb_spec price 0); [lia|].
      pose proof (js_mul_nonneg 1 price) as Hnonneg.
      destruct (Z.ltb_spec (js_mul 1 price) 0); [lia | reflexivity]. }
    unfold_M.
    match goal with
    | |- context [commit ?f ?w1] =>
        destruct (commit_cases f w1) as [(w2 & Hc & Hi2)|(e & w2 & Hc & Hi2)]
    end.
    + rewrite Hc.
      match goal with
      | |- context [afterOperation ?o ?it ?oi w2] =>
          destruct (afterOperation_items o it oi w2) as (w3 & -> & Hi3)
      end.
      eexists _, _. split; [reflexivity|]. split.
      * simpl. rewrite prop_insert_ne by discriminate. by rewrite Hone.
      * by rewrite Hi3, Hi2.
    + exfalso. unfold commit in Hc. unfold_M.
      match type of Hc with
      | context [store_call ?w1] =>
          destruct (store_up_call 0 w1) as (w1' & Hcall & _); [exact Hup|];
          rewrite Hcall in Hc
      end.
      discriminate.
  - apply validate_quantity_ok.
  - apply createOrderItem_quantities.
  - apply updateOrderItem_quantities.
  - apply deleteOrderItem_quantities.
Qed.

(** A create of zero Gadgets is refused; a create of one is stored; a
    shop holding items A and B still has valid quantities after B is
    updated. *)
Lemma quantity_at_least_one_witness :
  (exists messages w',
     createOrderItem "C"
       {[ "order" := Examples.connect "o1"; "product" := Examples.connect "p1";
          "quantity" := JsNumber 0 ]} Examples.shop
     = (Throw (ValidationError messages), w')
     /\ OrderItem_table w' = [])
  /\ (exists item w',
        createOrderItem "C"
          {[ "order" := Examples.connect "o1";
             "productNameSnapshot" := JsString "Gadget";
             "unitPriceCents" := JsNumber 500; "quantity" := JsNumber 1 ]}
          Examples.shop = (Ok item, w')
        /\ quantity item = Some 1
        /\ OrderItem_table w' = [item])
  /\ quantities_valid
       (snd (updateOrderItem "B" {[ "quantity" := JsNumber 5 ]}
               (Examples.shop_with [Examples.item_A; Examples.item_B] 4498 []))).
Proof.
  destruct quantity_at_least_one as (Hzero & Hone & _ & _ & Hupdate & _).
  split; [|split].
  - destruct (Hzero "C"
                {[ "order" := Examples.connect "o1";
                   "product" := Examples.connect "p1";
                   "quantity" := JsNumber 0 ]} Examples.shop)
      as (messages & w' & Hrun & _ & Hitems).
    + reflexivity.
    + exists messages, w'. split; [exact Hrun | exact Hitems].
  - destruct (Hone "C"
                {[ "order" := Examples.connect "o1";
                   "productNameSnapshot" := JsString "Gadget";
                   "unitPriceCents" := JsNumber 500; "quantity" := JsNumber 1 ]}
                "Gadget" 500 Examples.shop)
      as (item & w' & Hrun & Hquantity & Hitems).
    + reflexivity.
    + reflexivity.
    + discriminate.
    + reflexivity.
    + lia.
    + apply Forall_nil_2.
    + exists item, w'. split; [exact Hrun|]. split; [exact Hquantity | exact Hitems].
  - apply Hupdate. repeat constructor; eexists; (split; [reflexivity | lia]).
Defined.

(** ** The pipeline end to end *)

(** Creating A (3 Gadgets at 500) and B (2 Widgets, priced from the
    Product) under Order o1 brings its total to 4498; deleting A brings it
    to 2998. *)
Example order_total_round_trip :
  let after_A :=
    snd (createOrderItem "A"
           {[ "order" := Examples.connect "o1";
              "productNameSnapshot" := JsString "Gadget";
              "unitPriceCents" := JsNumber 500; "quantity" := JsNumber 3 ]}
           (Examples.shop_with [] 0 [])) in
  let after_B :=
    snd (createOrderItem "B"
           {[ "order" := Examples.connect "o1";
              "product" := Examples.connect "p1"; "quantity" := JsNumber 2;
              "unitPriceCents" := JsNumber 1499 ]} after_A) in
  let after_delete := snd (deleteOrderItem "A" after_B) in
  lineTotalCents <$> OrderItem_table after_B = [Some 1500; Some 2998]
  /\ totalCents <$> Order_table after_B !! "o1" = Some 4498
  /\ lineTotalCents <$> OrderItem_table after_delete = [Some 2998]
  /\ totalCents <$> Order_table after_delete !! "o1" = Some 2998.
Proof. vm_compute. by repeat split. Qed.

(** * Further properties of the hooks *)

(** ** Store calls made by the resolver *)

Lemma store_call_faults w r w1 :
  store_call w = (r, w1) -> faults w1 = tail (faults w).
Proof.
  unfold store_call. destruct (faults w) as [|[] rest] eqn:Hf;
    intros [= <- <-]; simpl; by rewrite ?Hf.
Qed.

Lemma Product_findOne_faults pid w r w1 :
  Product_findOne pid w = (r, w1) -> faults w1 = tail (faults w).
Proof.
  unfold Product_findOne. unfold_M.
  destruct (store_call w) as [[[]|e] w0] eqn:Hcall;
    apply store_call_faults in Hcall;
    destruct pid; intros [= <- <-]; exact Hcall.
Qed.

(** The snapshot step makes one store call when its guard holds, and none
    otherwise. *)
Lemma populateSnapshots_faults operation item data w r w' :
  populateSnapshots operation item data w = (r, w') ->
  faults w'
  = if truthy (resolveProductId operation item data)
         && (needName data || needPrice data)
    then tail (faults w) else faults w.
Proof.
  unfold populateSnapshots.
  destruct (truthy _ && _); [|by intros [= <- <-]].
  unfold try_catch.
  pose proof (snapshotLookup_cases (resolveProductId operation item data) data w) as Hl.
  destruct (Product_findOne _ w) as [[[p|]|e] w1] eqn:Hfind;
    apply Product_findOne_faults in Hfind; rewrite Hl;
    intros [= <- <-]; exact Hfind.
Qed.

Lemma resolveInput_faults operation item resolvedData w r w' :
  resolveInput operation item resolvedData w = (r, w') ->
  faults w'
  = if truthy (resolveProductId operation item resolvedData)
         && (needName resolvedData || needPrice resolvedData)
    then tail (faults w) else faults w.
Proof.
  unfold resolveInput, console_log, console_write. unfold_M.
  match goal with
  | |- context [populateSnapshots _ _ _ ?w0] =>
      destruct (populateSnapshots operation item resolvedData w0)
        as [[d|e] w1] eqn:Hpop;
      apply populateSnapshots_faults in Hpop
  end; intros [= <- <-]; exact Hpop.
Qed.

(** X1.  The resolver only reads: it leaves Products, OrderItems and
    Orders as they are, and it makes at most one store call per write,
    exactly one when a product id is resolvable and a snapshot field is
    missing, none otherwise. *)
Theorem resolveInput_reads_at_most_once operation item resolvedData w :
  exists out w',
    resolveInput operation item resolvedData w = (Ok out, w')
    /\ same_store w w'
    /\ faults w'
       = (if truthy (resolveProductId operation item resolvedData)
             && (needName resolvedData || needPrice resolvedData)
          then tail (faults w) else faults w).
Proof.
  destruct (resolveInput_run operation item resolvedData w) as (w' & Hrun & Hsame).
  eexists _, w'. split; [exact Hrun|]. split; [exact Hsame|].
  by apply resolveInput_faults in Hrun.
Qed.

(** X2.  Every field other than the two snapshot fields and the line
    total passes through the resolver untouched: the outgoing record has
    exactly the incoming entry under any other key ([quantity], [order],
    [product], ...). *)
Theorem resolveInput_passes_other_fields operation item resolvedData w out w' k :
  resolveInput operation item resolvedData w = (Ok out, w') ->
  k <> "productNameSnapshot" -> k <> "unitPriceCents" -> k <> "lineTotalCents" ->
  out !! k = resolvedData !! k.
Proof.
  destruct (resolveInput_run operation item resolvedData w) as (w1 & Hrun & _).
  rewrite Hrun. intros [= <- <-] Hname Hprice Htotal.
  rewrite lookup_insert_ne by congruence.
  destruct (fetchedProduct _ _ _ _) as [p|]; [|done].
  unfold populate.
  destruct (needPrice resolvedData), (needName resolvedData);
    rewrite ?lookup_insert_ne by congruence; reflexivity.
Qed.

Lemma resolveInput_passes_other_fields_witness :
  exists out w',
    resolveInput create None
      {[ "product" := Examples.connect "p1"; "order" := Examples.connect "o1";
         "quantity" := JsNumber 2 ]} Examples.shop = (Ok out, w')
    /\ out !! "order" = Some (Examples.connect "o1").
Proof.
  eexists _, _. split; [reflexivity|].
  etransitivity.
  - eapply (resolveInput_passes_other_fields create None
              {[ "product" := Examples.connect "p1"; "order" := Examples.connect "o1";
                 "quantity" := JsNumber 2 ]} Examples.shop);
      [reflexivity | discriminate | discriminate | discriminate].
  - reflexivity.
Defined.

(** ** What the resolver leaves alone *)

(** X3.  Snapshot values that the write supplies are never replaced: a
    non-empty [productNameSnapshot] and any [unitPriceCents] other than
    [undefined] come out as they went in, whatever Product is resolvable. *)
Theorem resolveInput_keeps_supplied_snapshots
    operation item resolvedData w out w' :
  resolveInput operation item resolvedData w = (Ok out, w') ->
  (forall supplied,
     prop resolvedData "productNameSnapshot" = JsString supplied ->
     supplied <> "" ->
     prop out "productNameSnapshot" = JsString supplied)
  /\ (prop resolvedData "unitPriceCents" <> JsUndefined ->
      prop out "unitPriceCents" = prop resolvedData "unitPriceCents").
Proof.
  destruct (resolveInput_run operation item resolvedData w) as (w1 & Hrun & _).
  rewrite Hrun. intros [= <- <-]. cbv zeta.
  rewrite !prop_insert_ne by discriminate. split.
  - intros supplied Hname Hne.
    destruct (fetchedProduct _ _ _ _) as [p|]; [|done].
    rewrite populate_name. unfold needName. rewrite Hname. simpl.
    destruct (String.eqb_spec supplied ""); [contradiction | reflexivity].
  - intros Hprice.
    destruct (fetchedProduct _ _ _ _) as [p|]; [|done].
    rewrite populate_price. unfold needPrice.
    by destruct (prop resolvedData "unitPriceCents").
Qed.

(** An update of the stored Widget line that names and prices the line
    itself, although Product p1 is resolvable and has changed. *)
Lemma resolveInput_keeps_supplied_snapshots_witness :
  exists out w',
    resolveInput update (Some Examples.widget_line)
      {[ "productNameSnapshot" := JsString "Custom";
         "unitPriceCents" := JsNumber 42 ]} Examples.shop_repriced = (Ok out, w')
    /\ prop out "productNameSnapshot" = JsString "Custom"
    /\ prop out "unitPriceCents" = JsNumber 42.
Proof.
  eexists _, _. split; [reflexivity|].
  edestruct (resolveInput_keeps_supplied_snapshots update (Some Examples.widget_line)
               {[ "productNameSnapshot" := JsString "Custom";
                  "unitPriceCents" := JsNumber 42 ]} Examples.shop_repriced)
    as [Hname Hprice]; [reflexivity|].
  split.
  - apply (Hname "Custom"); [reflexivity | discriminate].
  - apply Hprice. discriminate.
Defined.

(** ** Which Product the resolver reads *)

Lemma resolveProductId_unresolvable operation item data :
  truthy (opt_prop (opt_prop (prop data "product") "connect") "id") = false ->
  (is_update operation = false
   \/ truthy (prop data "product") = true
   \/ item ≫= productId = None
   \/ item ≫= productId = Some "") ->
  resolveProductId operation item data = JsUndefined.
Proof.
  intros Hconnect Hcases. unfold resolveProductId, item_productId.
  rewrite Hconnect.
  destruct Hcases as [-> | [-> | [-> | ->]]]; simpl;
    by rewrite ?andb_false_r.
Qed.

(** X4.  The stored product reference is used only by an update whose
    write has no truthy [product] (absent, or null).  When the write
    connects no Product and the operation is not an update, or the write
    carries some other truthy [product] input (such as a disconnect), or
    the stored item references no Product, nothing is looked up and nothing
    is made up: the record comes back as it was sent, plus the line total
    (the double product of the effective quantity and unit price), and the
    store is not called. *)
Theorem resolveInput_without_product operation item resolvedData w :
  truthy (opt_prop (opt_prop (prop resolvedData "product") "connect") "id")
    = false ->
  (is_update operation = false
   \/ truthy (prop resolvedData "product") = true
   \/ item ≫= productId = None
   \/ item ≫= productId = Some "") ->
  resolveInput operation item resolvedData w
  = (Ok (<["lineTotalCents" :=
             JsNumber (js_mul (resolveQuantity item resolvedData)
                              (resolveUnitPrice item resolvedData))]>
           resolvedData),
     set_console
       (console w ++ [(Log, "OrderItem resolveInput:"); (Log, "Need name:")])%list w).
Proof.
  intros Hconnect Hcases. apply resolveInput_no_lookup.
  by rewrite (resolveProductId_unresolvable _ _ _ Hconnect Hcases).
Qed.

(** An update of the Widget line that disconnects its Product and sends
    no snapshot fields: the stored reference to p1 is not followed. *)
Lemma resolveInput_without_product_witness :
  resolveInput update (Some Examples.widget_line)
    {[ "product" := JsObject {[ "disconnect" := JsBool true ]};
       "quantity" := JsNumber 4 ]} Examples.shop_repriced
  = (Ok {[ "product" := JsObject {[ "disconnect" := JsBool true ]};
           "quantity" := JsNumber 4;
           "lineTotalCents" := JsNumber (4 * 1999) ]},
     set_console [(Log, "OrderItem resolveInput:"); (Log, "Need name:")]
       Examples.shop_repriced).
Proof.
  etransitivity.
  - apply (resolveInput_without_product update (Some Examples.widget_line)
             {[ "product" := JsObject {[ "disconnect" := JsBool true ]};
                "quantity" := JsNumber 4 ]} Examples.shop_repriced).
    + reflexivity.
    + right. left. reflexivity.
  - vm_compute. reflexivity.
Defined.

(** X5.  A Product connected by the write takes precedence over the
    stored reference, on any operation: with the name missing and the price
    absent in the write, the snapshot is taken from the connected Product,
    whichever Product the stored item references, and the line total is the
    double product of the effective quantity and that Product's price. *)
Theorem resolveInput_connected_product_wins
    operation item resolvedData pid product w :
  opt_prop (opt_prop (prop resolvedData "product") "connect") "id" = JsString pid ->
  pid <> "" ->
  needName resolvedData = true ->
  prop resolvedData "unitPriceCents" = JsUndefined ->
  store_up 1 w ->
  Product_table w !! pid = Some product ->
  resolveProductId operation item resolvedData = JsString pid
  /\ exists out w',
      resolveInput operation item resolvedData w = (Ok out, w')
      /\ prop out "productNameSnapshot" = JsString (name product)
      /\ prop out "unitPriceCents" = JsNumber (priceCents product)
      /\ prop out "lineTotalCents"
         = JsNumber (js_mul (resolveQuantity item resolvedData)
                            (priceCents product)).
Proof.
  intros Hid Hpid HneedName Hprice Hup Hproduct.
  assert (resolveProductId operation item resolvedData = JsString pid) as Hresolved.
  { unfold resolveProductId. rewrite Hid. simpl.
    destruct (String.eqb_spec pid ""); [contradiction | reflexivity]. }
  split; [exact Hresolved|].
  assert (needPrice resolvedData = true) as HneedPrice.
  { unfold needPrice. by rewrite Hprice. }
  assert (fetchedProduct operation item resolvedData w = Some product) as Hfetched.
  { unfold fetchedProduct. rewrite Hresolved, HneedName. simpl.
    destruct (String.eqb_spec pid ""); [contradiction|]. simpl.
    unfold Product_findOne, store_call, store_up in *. unfold_M.
    destruct (faults w) as [|[] rest]; simpl; try done.
    by apply Forall_cons in Hup as [? _]. }
  destruct (resolveInput_run operation item resolvedData w) as (w' & Hrun & _).
  eexists _, w'. split; [exact Hrun|]. cbv zeta. rewrite Hfetched.
  rewrite !prop_insert_ne, prop_insert_eq by discriminate.
  rewrite populate_name, populate_price, HneedName, HneedPrice.
  rewrite resolveQuantity_populated. unfold resolveUnitPrice.
  by rewrite populate_price, HneedPrice.
Qed.

(** The stored Widget line references p1; an update connects p2. *)
Lemma resolveInput_connected_product_wins_witness :
  productId Examples.widget_line = Some "p1"
  /\ exists out w',
      resolveInput update (Some Examples.widget_line)
        {[ "product" := Examples.connect "p2" ]} Scenarios.catalogue = (Ok out, w')
      /\ prop out "productNameSnapshot" = JsString "Gizmo"
      /\ prop out "unitPriceCents" = JsNumber 750
      /\ prop out "lineTotalCents" = JsNumber 750.
Proof.
  split; [reflexivity|].
  destruct (resolveInput_connected_product_wins update (Some Examples.widget_line)
              {[ "product" := Examples.connect "p2" ]} "p2" Scenarios.gizmo
              Scenarios.catalogue)
    as (_ & out & w' & Hrun & Hname & Hprice & Htotal).
  - reflexivity.
  - discriminate.
  - reflexivity.
  - reflexivity.
  - apply Forall_nil_2.
  - reflexivity.
  - exists out, w'.
    repeat split; [exact Hrun | exact Hname | exact Hprice | exact Htotal].
Defined.

(** ** Resolving twice *)

Lemma store_up_weaken n w w' :
  store_up (S n) w ->
  faults w' = faults w \/ faults w' = tail (faults w) ->
  store_up n w'.
Proof.
  unfold store_up. intros Hup [-> | ->].
  - replace (take n (faults w)) with (take n (take (S n) (faults w)))
      by (rewrite take_take; f_equal; lia).
    by apply Forall_take.
  - destruct (faults w) as [|b rest]; simpl in *;
      [by rewrite take_nil | by apply Forall_cons in Hup as [_ ?]].
Qed.

(** With the store answering, what is fetched is the table entry under the
    resolved id. *)
Lemma fetchedProduct_store_up operation item data w :
  store_up 1 w ->
  fetchedProduct operation item data w
  = if truthy (resolveProductId operation item data)
         && (needName data || needPrice data)
    then match resolveProductId operation item data with
         | JsString pid => Product_table w !! pid
         | _ => None
         end
    else None.
Proof.
  intros Hup. unfold fetchedProduct.
  destruct (truthy _ && _); [|reflexivity].
  unfold Product_findOne, store_call, store_up in *. unfold_M.
  destruct (faults w) as [|[] rest]; simpl in *;
    try (by apply Forall_cons in Hup as [? _]);
    by destruct (resolveProductId operation item data).
Qed.

Lemma resolveProductId_ext operation item d1 d2 :
  prop d1 "product" = prop d2 "product" ->
  resolveProductId operation item d1 = resolveProductId operation item d2.
Proof. intros H. unfold resolveProductId. by rewrite H. Qed.

Lemma needName_ext d1 d2 :
  prop d1 "productNameSnapshot" = prop d2 "productNameSnapshot" ->
  needName d1 = needName d2.
Proof. intros H. unfold needName. by rewrite H. Qed.

Lemma needPrice_ext d1 d2 :
  prop d1 "unitPriceCents" = prop d2 "unitPriceCents" ->
  needPrice d1 = needPrice d2.
Proof. intros H. unfold needPrice. by rewrite H. Qed.

Lemma prop_insert_same k v (data : gmap string JsValue) :
  prop data k = v -> v <> JsUndefined -> <[k := v]> data = data.
Proof.
  unfold prop. intros H Hv. apply insert_id.
  destruct (data !! k); simpl in H; congruence.
Qed.

(** Populating a record that already carries what the Product would give
    changes nothing. *)
Lemma populate_fixed p data :
  (needName data = true -> prop data "productNameSnapshot" = JsString (name p)) ->
  needPrice data = false ->
  populate p data = data.
Proof.
  intros Hname Hprice. unfold populate. rewrite Hprice.
  destruct (needName data); [|reflexivity].
  by apply prop_insert_same; [apply Hname|].
Qed.

(** X6.  With the store answering, resolving is idempotent: feeding the
    resolver its own output (same operation, same stored item) returns that
    output again. *)
Theorem resolveInput_idempotent operation item resolvedData w out w' :
  store_up 2 w ->
  resolveInput operation item resolvedData w = (Ok out, w') ->
  exists w'', resolveInput operation item out w' = (Ok out, w'').
Proof.
  intros Hup Hrun.
  pose proof (resolveInput_faults _ _ _ _ _ _ Hrun) as Hfaults.
  assert (store_up 1 w) as Hup1 by (apply (store_up_weaken 1 w w Hup); by left).
  assert (store_up 1 w') as Hup1'.
  { apply (store_up_weaken 1 w w' Hup). rewrite Hfaults.
    destruct (truthy _ && _); [by right | by left]. }
  destruct (resolveInput_run operation item resolvedData w) as (w1 & Hrun1 & Hsame).
  rewrite Hrun1 in Hrun. injection Hrun as Hout <-. cbv zeta in Hout.
  destruct Hsame as (Htable & _ & _).
  destruct (resolveInput_run operation item out w1) as (w2 & Hrun2 & _).
  exists w2. rewrite Hrun2. f_equal. f_equal. cbv zeta.
  rewrite (fetchedProduct_store_up _ _ _ _ Hup1) in Hout.
  rewrite (fetchedProduct_store_up _ _ _ _ Hup1'), Htable.
  set (pid := resolveProductId operation item resolvedData) in *.
  assert (resolveProductId operation item out = pid) as ->.
  { subst out pid. apply resolveProductId_ext.
    rewrite prop_insert_ne by discriminate.
    match goal with
    | |- context [match ?x with Some _ => _ | None => _ end] => destruct x
    end; [by rewrite populate_other | done]. }
  set (found := match pid with
                | JsString s => Product_table w !! s
                | _ => None
                end) in *.
  assert (match (if truthy pid && (needName out || needPrice out)
                 then found else None) with
          | Some p => populate p out
          | None => out
          end = out) as ->.
  { destruct (truthy pid && (needName out || needPrice out)) eqn:Hguard2;
      [|reflexivity].
    destruct found as [p|] eqn:Hfound; [|reflexivity].
    apply andb_prop in Hguard2 as [Htruthy Hneed]. rewrite Htruthy in Hout.
    simpl in Hout.
    destruct (needName resolvedData || needPrice resolvedData) eqn:Hneed1.
    - (* the first pass fetched [p] *)
      assert (prop out "productNameSnapshot"
              = if needName resolvedData then JsString (name p)
                else prop resolvedData "productNameSnapshot") as Hn.
      { subst out. rewrite prop_insert_ne by discriminate. apply populate_name. }
      assert (prop out "unitPriceCents"
              = if needPrice resolvedData then JsNumber (priceCents p)
                else prop resolvedData "unitPriceCents") as Hp.
      { subst out. rewrite prop_insert_ne by discriminate. apply populate_price. }
      apply populate_fixed.
      + intros HneedOut. rewrite Hn.
        destruct (needName resolvedData) eqn:Hn1; [reflexivity|].
        rewrite (needName_ext out resolvedData) in HneedOut by exact Hn.
        congruence.
      + unfold needPrice. rewrite Hp. unfold needPrice.
        by destruct (prop resolvedData "unitPriceCents").
    - (* the first pass needed nothing, so neither does the second *)
      exfalso. subst out.
      rewrite (needName_ext _ resolvedData),
              (needPrice_ext _ resolvedData) in Hneed
        by (by rewrite prop_insert_ne by discriminate).
      congruence. }
  rewrite <- Hout at 3.
  rewrite <- Hout at 1 2.
  rewrite resolveQuantity_insert, resolveUnitPrice_insert by discriminate.
  by rewrite insert_insert_eq.
Qed.

(** A create that connects the Widget, resolved twice. *)
Lemma resolveInput_idempotent_witness :
  exists out w' w'',
    resolveInput create None
      {[ "product" := Examples.connect "p1"; "quantity" := JsNumber 2 ]}
      Examples.shop = (Ok out, w')
    /\ prop out "unitPriceCents" = JsNumber 1999
    /\ resolveInput create None out w' = (Ok out, w'').
Proof.
  eexists _, _.
  edestruct (resolveInput_idempotent create None
               {[ "product" := Examples.connect "p1"; "quantity" := JsNumber 2 ]}
               Examples.shop) as (w'' & Hagain).
  - apply Forall_nil_2.
  - reflexivity.
  - exists w''. split; [reflexivity|]. split; [reflexivity | exact Hagain].
Defined.

(** X7.  An update that brings no numeric unit price, and for which no
    Product is fetched to supply one (no resolvable Product, a failed or
    empty lookup, or an explicit null price), is totalled with the unit
    price stored on the item: the line total is the double product of the
    effective quantity and the stored price. *)
Theorem resolveInput_update_uses_stored_price stored price resolvedData w :
  unitPriceCents stored = Some price ->
  is_number (prop resolvedData "unitPriceCents") = false ->
  (needPrice resolvedData = true ->
   fetchedProduct update (Some stored) resolvedData w = None) ->
  exists out w',
    resolveInput update (Some stored) resolvedData w = (Ok out, w')
    /\ prop out "unitPriceCents" = prop resolvedData "unitPriceCents"
    /\ prop out "lineTotalCents"
       = JsNumber (js_mul (resolveQuantity (Some stored) resolvedData) price).
Proof.
  intros Hstored Hnum Hfetch.
  destruct (resolveInput_run update (Some stored) resolvedData w)
    as (w' & Hrun & _).
  eexists _, w'. split; [exact Hrun|]. cbv zeta.
  set (data := match fetchedProduct _ _ _ _ with Some p => _ | None => _ end).
  assert (prop data "unitPriceCents" = prop resolvedData "unitPriceCents") as Hp.
  { subst data. destruct (fetchedProduct _ _ _ _) eqn:Hf; [|done].
    rewrite populate_price. destruct (needPrice resolvedData); [|done].
    specialize (Hfetch eq_refl). congruence. }
  assert (resolveQuantity (Some stored) data
          = resolveQuantity (Some stored) resolvedData) as Hq.
  { subst data. destruct (fetchedProduct _ _ _ _); [|done].
    apply resolveQuantity_populated. }
  rewrite prop_insert_ne, prop_insert_eq by discriminate.
  split; [exact Hp|]. rewrite Hq. unfold resolveUnitPrice. rewrite Hp.
  simpl. rewrite Hstored.
  by destruct (prop resolvedData "unitPriceCents").
Qed.

(** The store is down while item B (2 at 1499) is updated to 5 units. *)
Lemma resolveInput_update_uses_stored_price_witness :
  fetchedProduct update (Some Examples.item_B) {[ "quantity" := JsNumber 5 ]}
    (Examples.shop_with [Examples.item_B] 2998 [true]) = None
  /\ exists out w',
      resolveInput update (Some Examples.item_B) {[ "quantity" := JsNumber 5 ]}
        (Examples.shop_with [Examples.item_B] 2998 [true]) = (Ok out, w')
      /\ prop out "unitPriceCents" = JsUndefined
      /\ prop out "lineTotalCents" = JsNumber (5 * 1499).
Proof.
  split; [reflexivity|].
  destruct (resolveInput_update_uses_stored_price Examples.item_B 1499
              {[ "quantity" := JsNumber 5 ]}
              (Examples.shop_with [Examples.item_B] 2998 [true]))
    as (out & w' & Hrun & Hprice & Htotal).
  - reflexivity.
  - reflexivity.
  - reflexivity.
  - exists out, w'. repeat split; [exact Hrun | exact Hprice | exact Htotal].
Defined.

(** ** The total as a function of the listing *)

Lemma sum_lineTotals_app l1 l2 :
  sum_lineTotals_spec (l1 ++ l2)%list
  = sum_lineTotals_spec l1 + sum_lineTotals_spec l2.
Proof. induction l1 as [|oi l1 IH]; simpl; lia. Qed.

(** X8.  The total that the hook reduces from a listing is 0 for an empty
    listing, adds up over concatenated listings, and does not depend on the
    order in which the store lists the items. *)
Theorem reduce_total_listing :
  reduce_total [] = 0
  /\ (forall l1 l2,
        reduce_total (l1 ++ l2)%list = reduce_total l1 + reduce_total l2)
  /\ (forall l1 l2, l1 ≡ₚ l2 -> reduce_total l1 = reduce_total l2).
Proof.
  split; [reflexivity|]. split.
  - intros l1 l2. rewrite !reduce_total_sum. apply sum_lineTotals_app.
  - intros l1 l2 Hperm. rewrite !reduce_total_sum.
    induction Hperm; simpl; lia.
Qed.

Lemma reduce_total_listing_witness :
  [Examples.item_A; Examples.item_B] ≡ₚ [Examples.item_B; Examples.item_A]
  /\ reduce_total [Examples.item_A; Examples.item_B]
     = reduce_total [Examples.item_B; Examples.item_A].
Proof.
  split; [apply Permutation_swap|].
  apply reduce_total_listing. apply Permutation_swap.
Defined.

(** ** What a recalculation changes *)

Lemma recalculate_faults oid w r w' :
  recalculate oid w = (r, w') ->
  faults w' = tail (faults w) \/ faults w' = tail (tail (faults w)).
Proof.
  unfold recalculate, OrderItem_findMany, Order_updateOne. unfold_M.
  destruct (store_call w) as [[[]|e1] w1] eqn:Hcall1;
    apply store_call_faults in Hcall1.
  2: { intros [= <- <-]. by left. }
  destruct (store_call w1) as [[[]|e2] w2] eqn:Hcall2;
    apply store_call_faults in Hcall2; rewrite Hcall1 in Hcall2.
  2: { intros [= <- <-]. by right. }
  destruct (Order_table w2 !! oid) as [o|]; [|intros [= <- <-]; by right].
  destruct (validate_integer _ _ _); intros [= <- <-]; by right.
Qed.

(** A recalculation either leaves the Orders alone or rewrites the total
    of one existing Order. *)
Lemma recalculate_orders oid w r w' :
  recalculate oid w = (r, w') ->
  Order_table w' = Order_table w
  \/ exists o total,
       Order_table w !! oid = Some o
       /\ Order_table w'
          = <[oid := Order_set_totalCents total (now w) o]> (Order_table w).
Proof.
  unfold recalculate, OrderItem_findMany, Order_updateOne. unfold_M.
  destruct (store_call w) as [[[]|e1] w1] eqn:Hcall1;
    pose proof (store_call_now _ _ _ Hcall1) as Hn1;
    apply store_call_same_store in Hcall1 as ((_ & _ & Ho1) & _).
  2: { intros [= <- <-]. by left. }
  destruct (store_call w1) as [[[]|e2] w2] eqn:Hcall2;
    pose proof (store_call_now _ _ _ Hcall2) as Hn2;
    apply store_call_same_store in Hcall2 as ((_ & _ & Ho2) & _).
  2: { intros [= <- <-]. left. congruence. }
  destruct (Order_table w2 !! oid) as [o|] eqn:Horder.
  2: { intros [= <- <-]. left. congruence. }
  destruct (validate_integer _ _ _).
  - intros [= <- <-]. right. eexists o, _. simpl.
    rewrite <- Hn1, <- Hn2, <- Ho1, <- Ho2. by split.
  - intros [= <- <-]. left. congruence.
Qed.

(** X9.  Whatever it is called with and whatever the store does, the
    recalculator returns normally, never touches Products or OrderItems,
    never creates or removes an Order, and never changes an Order's user,
    status, currency or creation time: at most the [totalCents] and the
    [updatedAt] of Orders that already exist differ afterwards. *)
Theorem afterOperation_frame operation item originalItem w :
  exists w',
    afterOperation operation item originalItem w = (Ok tt, w')
    /\ Product_table w' = Product_table w
    /\ OrderItem_table w' = OrderItem_table w
    /\ dom (Order_table w') = dom (Order_table w)
    /\ (forall oid o',
          Order_table w' !! oid = Some o' ->
          exists o, Order_table w !! oid = Some o
                    /\ userId o' = userId o
                    /\ status o' = status o
                    /\ currencyCode o' = currencyCode o
                    /\ createdAt o' = createdAt o).
Proof.
  unfold afterOperation.
  destruct (effectiveOrderId item originalItem) as [oid|].
  2: { exists w. repeat split; eauto 10. }
  unfold try_catch.
  destruct (recalculate oid w) as [r w1] eqn:Hrun.
  pose proof (recalculate_frame _ _ _ _ Hrun) as (Hp & Hi & _ & _).
  pose proof (recalculate_orders _ _ _ _ Hrun) as Horders.
  assert (dom (Order_table w1) = dom (Order_table w)
          /\ (forall k o',
                Order_table w1 !! k = Some o' ->
                exists o, Order_table w !! k = Some o
                          /\ userId o' = userId o
                          /\ status o' = status o
                          /\ currencyCode o' = currencyCode o
                          /\ createdAt o' = createdAt o)) as [Hdom Hkeep].
  { destruct Horders as [-> | (o & total & Ho & ->)]; [split; eauto 10|].
    split.
    - rewrite dom_insert_L. apply subseteq_union_1_L, singleton_subseteq_l.
      by apply elem_of_dom_2 in Ho.
    - intros k o' Hk. destruct (decide (oid = k)) as [<-|Hne].
      + rewrite lookup_insert_eq in Hk. injection Hk as <-. eauto 10.
      + rewrite lookup_insert_ne in Hk by done. eauto 10. }
  destruct r as [[]|e]; eexists; (split; [reflexivity|]); simpl;
    repeat split; done.
Qed.

Lemma store_up_after_recalculate n oid w r w' :
  store_up (S (S n)) w -> recalculate oid w = (r, w') -> store_up n w'.
Proof.
  intros Hup Hrun. apply recalculate_faults in Hrun as [Hf | Hf].
  - apply (store_up_weaken n (set_faults (tail (faults w)) w)).
    + apply (store_up_weaken (S n) w); [exact Hup | by right].
    + by left.
  - apply (store_up_weaken n (set_faults (tail (faults w)) w)).
    + apply (store_up_weaken (S n) w); [exact Hup | by right].
    + by right.
Qed.

(** X10.  Recalculating is idempotent up to the update timestamp: with
    the store answering, a second run of the hook at any time [t] leaves
    Products, OrderItems and every Order as the first run left them, except
    that the Order's [updatedAt] becomes [t]; its total is written again
    unchanged. *)
Theorem afterOperation_idempotent operation item originalItem oid o w :
  effectiveOrderId item originalItem = Some oid ->
  Order_table w !! oid = Some o ->
  store_up 4 w ->
  lineTotals_valid w ->
  exists w1 o1,
    afterOperation operation item originalItem w = (Ok tt, w1)
    /\ Order_table w1 !! oid = Some o1
    /\ forall t, exists w2,
         afterOperation operation item originalItem (set_now t w1) = (Ok tt, w2)
         /\ Product_table w2 = Product_table w1
         /\ OrderItem_table w2 = OrderItem_table w1
         /\ Order_table w2
            = <[oid := Order_set_totalCents (totalCents o1) t o1]> (Order_table w1).
Proof.
  intros Hoid Horder Hup Hvalid.
  assert (store_up 2 w) as Hup2.
  { apply (store_up_weaken 2 (set_faults (faults w) w)); [|by left].
    apply (store_up_weaken 3 w); [exact Hup | by left]. }
  assert (0 <= sum_lineTotals_spec (order_items oid (OrderItem_table w))) as Hsum
    by (by apply order_items_total_nonneg).
  destruct (recalculate_ok oid o w Hup2 Horder Hsum)
    as (w1 & Hrun1 & Hp1 & Hi1 & Ho1 & Hn1 & Hc1).
  pose proof (store_up_after_recalculate 2 oid w _ w1 Hup Hrun1) as Hup1.
  set (total := sum_lineTotals_spec (order_items oid (OrderItem_table w))) in *.
  assert (Order_table w1 !! oid = Some (Order_set_totalCents total (now w) o))
    as Horder1 by (by rewrite Ho1, lookup_insert_eq).
  exists w1, (Order_set_totalCents total (now w) o).
  unfold afterOperation, try_catch. rewrite Hoid, Hrun1.
  split; [reflexivity|]. split; [exact Horder1|].
  intros t.
  assert (0 <= sum_lineTotals_spec
                 (order_items oid (OrderItem_table (set_now t w1)))) as Hsum1
    by (simpl; by rewrite Hi1).
  destruct (recalculate_ok oid _ (set_now t w1) Hup1 Horder1 Hsum1)
    as (w2 & Hrun2 & Hp2 & Hi2 & Ho2 & _).
  exists w2. rewrite Hrun2. split; [reflexivity|].
  split; [exact Hp2|]. split; [exact Hi2|].
  rewrite Ho2. simpl. by rewrite Hi1.
Qed.

(** Item B's create hook, run over the shop that holds A and B at time
    5000 and again at time 9000. *)
Lemma afterOperation_idempotent_witness :
  exists w1 w2,
    afterOperation create (Some Examples.item_B) None
      (Examples.shop_with [Examples.item_A; Examples.item_B] 1500 []) = (Ok tt, w1)
    /\ afterOperation create (Some Examples.item_B) None (set_now 9000 w1)
       = (Ok tt, w2)
    /\ OrderItem_table w2 = OrderItem_table w1
    /\ Order_table w1 !! "o1"
       = Some {| userId := Some "u1"; status := pending; currencyCode := "USD";
                 totalCents := 4498; createdAt := 1000; updatedAt := 5000 |}
    /\ Order_table w2 !! "o1"
       = Some {| userId := Some "u1"; status := pending; currencyCode := "USD";
                 totalCents := 4498; createdAt := 1000; updatedAt := 9000 |}.
Proof.
  destruct (afterOperation_idempotent create (Some Examples.item_B) None "o1"
              (Examples.order_row pending "USD" 1500)
              (Examples.shop_with [Examples.item_A; Examples.item_B] 1500 []))
    as (w1 & o1 & Hrun1 & Horder1 & Hagain).
  - reflexivity.
  - reflexivity.
  - apply Forall_nil_2.
  - repeat constructor; simpl; lia.
  - destruct (Hagain 9000) as (w2 & Hrun2 & _ & Hitems & Horders).
    exists w1, w2. split; [exact Hrun1|]. split; [exact Hrun2|].
    split; [exact Hitems|].
    rewrite Horders, lookup_insert_eq.
    vm_compute in Hrun1. injection Hrun1 as <-.
    vm_compute in Horder1. injection Horder1 as <-.
    split; reflexivity.
Defined.

(** X11.  When no stored item belongs to the Order any more (its last
    item has just been deleted, say), the recalculation sets the Order's
    total to 0, stamps [updatedAt] and keeps the other columns. *)
Theorem afterOperation_empty_order operation item originalItem oid o w :
  effectiveOrderId item originalItem = Some oid ->
  Order_table w !! oid = Some o ->
  store_up 2 w ->
  order_items oid (OrderItem_table w) = [] ->
  exists w',
    afterOperation operation item originalItem w = (Ok tt, w')
    /\ Order_table w' !! oid
       = Some {| userId := userId o; status := status o;
                 currencyCode := currencyCode o; totalCents := 0;
                 createdAt := createdAt o; updatedAt := now w |}.
Proof.
  intros Hoid Horder Hup Hempty.
  destruct (recalculate_ok oid o w Hup Horder) as (w' & Hrun & _ & _ & Ho & _).
  { by rewrite Hempty. }
  exists w'. unfold afterOperation, try_catch. rewrite Hoid, Hrun.
  split; [reflexivity|]. by rewrite Ho, Hempty, lookup_insert_eq.
Qed.

(** The only item of Order o2 has been deleted; o2 still shows 77. *)
Lemma afterOperation_empty_order_witness :
  exists w',
    afterOperation delete None
      (Some {| id := "Z"; orderId := Some "o2"; productId := None;
               productNameSnapshot := "Gadget"; unitPriceCents := Some 77;
               quantity := Some 1; lineTotalCents := Some 77 |})
      (Scenarios.two_orders []) = (Ok tt, w')
    /\ Order_table w' !! "o2"
       = Some {| userId := Some "u1"; status := paid; currencyCode := "EUR";
                 totalCents := 0; createdAt := 1000; updatedAt := 5000 |}.
Proof.
  apply (afterOperation_empty_order delete None _ "o2"
           (Examples.order_row paid "EUR" 77)
           (Scenarios.two_orders [])).
  - reflexivity.
  - reflexivity.
  - apply Forall_nil_2.
  - reflexivity.
Defined.

(** ** The stored line total *)

Lemma resolveInput_total operation item resolvedData w out w' :
  resolveInput operation item resolvedData w = (Ok out, w') ->
  prop out "lineTotalCents"
  = JsNumber (js_mul (resolveQuantity item out) (resolveUnitPrice item out))
  /\ OrderItem_table w' = OrderItem_table w.
Proof.
  destruct (resolveInput_run operation item resolvedData w)
    as (w1 & Hrun & _ & Hi & _).
  rewrite Hrun. intros [= <- <-]. split; [|exact Hi]. cbv zeta.
  by rewrite prop_insert_eq, resolveQuantity_insert, resolveUnitPrice_insert.
Qed.

Lemma validate_unitPrice_ok operation v :
  validate_integer OrderItemFields.unitPriceCents operation v = [] ->
  (v = JsUndefined /\ operation <> create) \/ exists p, v = JsNumber p /\ 0 <= p.
Proof.
  destruct v as [| | |n| |]; simpl; try discriminate.
  - destruct operation; simpl; try discriminate; intros _; left; by split.
  - destruct (Z.ltb_spec n 0); [discriminate|]. intros _. right. by exists n.
Qed.

Lemma validateInput_unitPrice operation data :
  validateInput operation data = [] ->
  validate_integer OrderItemFields.unitPriceCents operation
    (prop data "unitPriceCents") = [].
Proof.
  unfold validateInput.
  intros (_ & (H & _)%app_eq_nil)%app_eq_nil. exact H.
Qed.

Lemma created_item_consistent newId data :
  validateInput create data = [] ->
  prop data "lineTotalCents"
  = JsNumber (js_mul (resolveQuantity None data) (resolveUnitPrice None data)) ->
  exists q p,
    quantity (created_item newId data) = Some q
    /\ unitPriceCents (created_item newId data) = Some p
    /\ lineTotalCents (created_item newId data) = Some (js_mul q p).
Proof.
  intros Hval Htotal.
  pose proof (validate_quantity_ok _ _ (validateInput_quantity _ _ Hval))
    as [[_ Hc]|(q & Hq & _)]; [done|].
  pose proof (validate_unitPrice_ok _ _ (validateInput_unitPrice _ _ Hval))
    as [[_ Hc]|(p & Hp & _)]; [done|].
  exists q, p. simpl. rewrite Htotal. unfold resolveQuantity, resolveUnitPrice.
  by rewrite Hq, Hp.
Qed.

Lemma updated_item_consistent stored data :
  (exists q p, quantity stored = Some q /\ unitPriceCents stored = Some p
               /\ lineTotalCents stored = Some (js_mul q p)) ->
  validateInput update data = [] ->
  prop data "lineTotalCents"
  = JsNumber (js_mul (resolveQuantity (Some stored) data)
                     (resolveUnitPrice (Some stored) data)) ->
  exists q p,
    quantity (updated_item stored data) = Some q
    /\ unitPriceCents (updated_item stored data) = Some p
    /\ lineTotalCents (updated_item stored data) = Some (js_mul q p).
Proof.
  intros (q0 & p0 & Hq0 & Hp0 & _) Hval Htotal.
  exists (resolveQuantity (Some stored) data), (resolveUnitPrice (Some stored) data).
  simpl. rewrite Htotal. unfold resolveQuantity, resolveUnitPrice. simpl.
  rewrite Hq0, Hp0. simpl.
  pose proof (validate_quantity_ok _ _ (validateInput_quantity _ _ Hval))
    as [[-> _]|(q & -> & _)];
  pose proof (validate_unitPrice_ok _ _ (validateInput_unitPrice _ _ Hval))
    as [[-> _]|(p & -> & _)]; by simpl.
Qed.

Lemma createOrderItem_consistent newId input w :
  lineTotals_consistent w ->
  lineTotals_consistent (snd (createOrderItem newId input w)).
Proof.
  intros Hvalid. unfold createOrderItem. unfold_M.
  destruct (resolveInput create None (applyDefaults input) w) as [r w1] eqn:Hres.
  destruct (resolveInput_Ok _ _ _ _ _ _ Hres) as (data & ->).
  apply resolveInput_total in Hres as [Htotal Hi].
  destruct (validateInput create data) eqn:Hval.
  2: { simpl. unfold lineTotals_consistent. by rewrite Hi. }
  match goal with
  | |- context [commit ?f w1] =>
      destruct (commit_cases f w1) as [(w2 & -> & Hi2)|(e & w2 & -> & Hi2)]
  end.
  - match goal with
    | |- context [afterOperation ?o ?i ?oi w2] =>
        destruct (afterOperation_items o i oi w2) as (w3 & -> & Hi3)
    end.
    simpl. unfold lineTotals_consistent. rewrite Hi3, Hi2, Hi.
    apply Forall_app. split; [exact Hvalid|].
    constructor; [|constructor]. by apply created_item_consistent.
  - simpl. unfold lineTotals_consistent. by rewrite Hi2, Hi.
Qed.

Lemma updateOrderItem_consistent i input w :
  lineTotals_consistent w ->
  lineTotals_consistent (snd (updateOrderItem i input w)).
Proof.
  intros Hvalid. unfold updateOrderItem.
  destruct (OrderItem_find_cases i w) as [(stored & Hfind & Hin)|Hfind];
    unfold mbind at 1, M_bind at 1; rewrite Hfind; [|done].
  unfold_M.
  destruct (resolveInput update (Some stored) input w) as [r w1] eqn:Hres.
  destruct (resolveInput_Ok _ _ _ _ _ _ Hres) as (data & ->).
  apply resolveInput_total in Hres as [Htotal Hi].
  destruct (validateInput update data) eqn:Hval.
  2: { simpl. unfold lineTotals_consistent. by rewrite Hi. }
  assert (exists q p,
            quantity (updated_item stored data) = Some q
            /\ unitPriceCents (updated_item stored data) = Some p
            /\ lineTotalCents (updated_item stored data) = Some (js_mul q p))
    as Hnew.
  { apply updated_item_consistent; [|done|done].
    unfold lineTotals_consistent in Hvalid. rewrite Forall_forall in Hvalid.
    by apply Hvalid. }
  match goal with
  | |- context [commit ?f w1] =>
      destruct (commit_cases f w1) as [(w2 & -> & Hi2)|(e & w2 & -> & Hi2)]
  end.
  - match goal with
    | |- context [afterOperation ?o ?it ?oi w2] =>
        destruct (afterOperation_items o it oi w2) as (w3 & -> & Hi3)
    end.
    simpl. unfold lineTotals_consistent. rewrite Hi3, Hi2, Hi.
    apply Forall_map. unfold lineTotals_consistent in Hvalid.
    eapply Forall_impl; [exact Hvalid|].
    intros oi Hoi. simpl. by destruct (has_id i oi).
  - simpl. unfold lineTotals_consistent. by rewrite Hi2, Hi.
Qed.

Lemma deleteOrderItem_consistent i w :
  lineTotals_consistent w -> lineTotals_consistent (snd (deleteOrderItem i w)).
Proof.
  intros Hvalid. unfold deleteOrderItem.
  destruct (OrderItem_find_cases i w) as [(stored & Hfind & Hin)|Hfind];
    unfold mbind at 1, M_bind at 1; rewrite Hfind; [|done].
  unfold_M.
  match goal with
  | |- context [commit ?f w] =>
      destruct (commit_cases f w) as [(w2 & -> & Hi2)|(e & w2 & -> & Hi2)]
  end.
  - match goal with
    | |- context [afterOperation ?o ?it ?oi w2] =>
        destruct (afterOperation_items o it oi w2) as (w3 & -> & Hi3)
    end.
    simpl. unfold lineTotals_consistent. rewrite Hi3, Hi2.
    unfold lineTotals_consistent in Hvalid. rewrite Forall_forall in Hvalid.
    apply Forall_forall. intros oi Hoi. apply Hvalid.
    apply list_elem_of_In in Hoi. apply List.filter_In in Hoi as [Hoi _].
    by apply list_elem_of_In.
  - simpl. unfold lineTotals_consistent. by rewrite Hi2.
Qed.

(** X12.  In the write pipeline (defaults, resolver, field validation,
    commit, recalculator) the resolver and the schema's validation options
    together keep every stored OrderItem consistent: once every stored item
    has a quantity, a unit price and, as [lineTotalCents], their double
    product, that still holds after any create, update or delete, whether
    the write is accepted, rejected or hit by a store failure.  On such a
    store every line total below 2^53 in magnitude, so every one that fits
    a 32-bit column, is exactly [quantity * unitPriceCents]. *)
Theorem stored_lineTotals_consistent :
  (forall newId input w,
     lineTotals_consistent w ->
     lineTotals_consistent (snd (createOrderItem newId input w)))
  /\ (forall i input w,
        lineTotals_consistent w ->
        lineTotals_consistent (snd (updateOrderItem i input w)))
  /\ (forall i w,
        lineTotals_consistent w ->
        lineTotals_consistent (snd (deleteOrderItem i w)))
  /\ (forall w oi q p total,
        lineTotals_consistent w ->
        oi ∈ OrderItem_table w ->
        quantity oi = Some q -> unitPriceCents oi = Some p ->
        lineTotalCents oi = Some total ->
        Z.abs total < 2 ^ 53 ->
        total = q * p).
Proof.
  split; [|split; [|split]].
  - apply createOrderItem_consistent.
  - apply updateOrderItem_consistent.
  - apply deleteOrderItem_consistent.
  - intros w oi q p total Hvalid Hin Hq Hp Htotal Hsmall.
    unfold lineTotals_consistent in Hvalid. rewrite Forall_forall in Hvalid.
    destruct (Hvalid oi Hin) as (q' & p' & Hq' & Hp' & Htotal').
    assert (q' = q) as -> by congruence.
    assert (p' = p) as -> by congruence.
    assert (total = js_mul q p) as -> by congruence.
    by apply round_to_double_small.
Qed.

(** Item B (2 at 1499) is updated to 5 units next to item A. *)
Lemma stored_lineTotals_consistent_witness :
  lineTotals_consistent
    (Examples.shop_with [Examples.item_A; Examples.item_B] 4498 [])
  /\ lineTotals_consistent
       (snd (updateOrderItem "B" {[ "quantity" := JsNumber 5 ]}
               (Examples.shop_with [Examples.item_A; Examples.item_B] 4498 [])))
  /\ 1500 = 3 * 500.
Proof.
  assert (lineTotals_consistent
            (Examples.shop_with [Examples.item_A; Examples.item_B] 4498 [])) as H.
  { repeat constructor.
    - exists 3, 500. repeat split; reflexivity.
    - exists 2, 1499. repeat split; reflexivity. }
  split; [exact H|].
  destruct stored_lineTotals_consistent as (_ & Hupdate & _ & Hexact).
  split; [apply Hupdate; exact H|].
  apply (Hexact (Examples.shop_with [Examples.item_A; Examples.item_B] 4498 [])
           Examples.item_A 3 500 1500).
  - exact H.
  - apply list_elem_of_here.
  - reflexivity.
  - reflexivity.
  - reflexivity.
  - reflexivity.
Defined.
